(** * tsr/system.py: rendering output conversion, the cached iso-surface
      helper and mesh extraction of the [TSR] module.

    The development is a shallow embedding of three methods of class [TSR]:
    [render] (with its local function [process_output]),
    [set_marching_cubes_resolution] and [extract_mesh].

    - Python exceptions are values of [exn]; a call either returns a value
      or raises ([result]).  [exn] stands for instances of Python's
      [Exception] class, the ones an [except Exception] clause catches.
      Calls of the [logging] module append a record and do not raise.
    - The only mutable attribute the three methods touch is
      [self.isosurface_helper]; together with the records handed to the
      [logging] module it forms the [World] that is threaded through the
      code by the monad [M].  A raise keeps the world reached so far, as in
      Python.
    - The collaborators that live outside this file (the iso-surface helper
      class, [scale_tensor], the renderer, the decoder queries, tensor
      arithmetic and [trimesh]) are the fields of the class
      [Collaborators]; every one of them may raise. *)

From Stdlib Require Import ZArith List String Bool Lia.
From Stdlib Require Import SpecFloat.
Import ListNotations.

Set Implicit Arguments.

(** ** Exceptions and results *)

Inductive exn : Type :=
| AttributeError (msg : string)
| TypeError (msg : string)
| IndexError (msg : string)
| NotImplementedError
| MemoryError
| RuntimeError (msg : string)
| ValueError (msg : string).

Inductive result (A : Type) : Type :=
| Ok (a : A)
| Raise (e : exn).

Arguments Ok {A} a.
Arguments Raise {A} e.

Definition rbind {A B : Type} (r : result A) (k : A -> result B) : result B :=
  match r with
  | Ok a => k a
  | Raise e => Raise e
  end.

Declare Scope result_scope.
Delimit Scope result_scope with res.
Notation "x <- r ;; k" := (rbind r (fun x => k))
  (at level 61, r at next level, right associativity) : result_scope.

(** ** Log records

    [logging.info(msg)] and [logging.error(fmt, e)] append a record; the
    exception handed to [logging.error] is kept as the record's argument. *)

Inductive level : Type := INFO | ERROR.

Record LogRecord : Type := mkLogRecord {
  levelname : level;
  msg : string;
  args : option exn
}.

Definition info (s : string) : LogRecord := mkLogRecord INFO s None.
Definition error (s : string) (e : exn) : LogRecord := mkLogRecord ERROR s (Some e).

(** ** 32-bit floats and 8-bit pixels

    Rendered images are float32 tensors; a float32 value is a [spec_float]
    used with precision 24 and maximal exponent 128. *)

Definition float32 : Type := spec_float.

Definition f32_mul : float32 -> float32 -> float32 := SFmul 24 128.

(** The Python literal [255.0] (as float32: 0xFF0000 * 2^-16), and the
    values 0.0, 1.0 and 0.5. *)
Definition f255 : float32 := S754_finite false 16711680 (-16).
Definition f32_zero : float32 := S754_zero false.
Definition f32_one : float32 := S754_finite false 8388608 (-23).
Definition f32_half : float32 := S754_finite false 8388608 (-24).

(** The integer part of [m * 2^e], truncated toward zero. *)
Definition trunc_mantissa (m : positive) (e : Z) : Z :=
  match e with
  | Z0 => Zpos m
  | Zpos p => Z.shiftl (Zpos m) (Zpos p)
  | Zneg p => Z.shiftr (Zpos m) (Zpos p)
  end.

Definition f32_trunc (x : float32) : option Z :=
  match x with
  | S754_zero _ => Some 0%Z
  | S754_finite s m e => Some (if s then Z.opp (trunc_mantissa m e) else trunc_mantissa m e)
  | S754_infinity _ => None
  | S754_nan => None
  end.

(** ** Collaborators *)

Record TriplaneOutput (T : Type) : Type := mkTriplaneOutput {
  density_act : T;
  color : T
}.

Class Collaborators : Type := {
  (* data *)
  Tensor : Type;
  NDArray : Type;
  Scalar : Type;
  SceneCode : Type;
  Decoder : Type;
  Rays : Type;
  Mesh : Type;
  (* models/isosurface.py: class MarchingCubeHelper *)
  MarchingCubeHelperT : Type;
  MarchingCubeHelper : Z -> result MarchingCubeHelperT;
  helper_resolution : MarchingCubeHelperT -> Z;
  grid_vertices : MarchingCubeHelperT -> result Tensor;
  points_range : MarchingCubeHelperT -> Scalar * Scalar;
  helper_call : MarchingCubeHelperT -> Tensor -> result (Tensor * Tensor);
  (* utils.py *)
  scale_tensor : Tensor -> Scalar * Scalar -> Scalar * Scalar -> result Tensor;
  get_spherical_cameras : Z -> Scalar -> Scalar -> Scalar -> Z -> Z -> result (list Rays * list Rays);
  (* self.decoder, self.renderer, self.renderer.cfg.radius *)
  decoder : Decoder;
  radius : Scalar;
  query_triplane : Decoder -> Tensor -> SceneCode -> result (TriplaneOutput Tensor);
  renderer : Decoder -> SceneCode -> Rays -> Rays -> result (list float32);
  (* torch and numpy *)
  scalar_neg : Scalar -> Scalar;
  tensor_sub : Tensor -> Scalar -> Tensor;
  tensor_neg : Tensor -> Tensor;
  tensor_to : Tensor -> result Tensor;
  rays_to : list Rays -> result (list Rays);
  cpu_numpy : Tensor -> result NDArray;
  (* what the float32 -> uint8 cast yields where C leaves it undefined *)
  uint8_cast_undefined : float32 -> Z;
  (* trimesh.Trimesh(vertices=, faces=, vertex_colors=) *)
  Trimesh : NDArray -> NDArray -> NDArray -> result Mesh
}.

Section TSR.

Context {C : Collaborators}.

(** ** The world: [self.isosurface_helper] and the log *)

Record World : Type := mkWorld {
  isosurface_helper : option MarchingCubeHelperT;
  log : list LogRecord
}.

Definition M (A : Type) : Type := World -> result A * World.

Definition ret {A : Type} (a : A) : M A := fun w => (Ok a, w).

Definition bind {A B : Type} (m : M A) (k : A -> M B) : M B :=
  fun w =>
    match m w with
    | (Ok a, w') => k a w'
    | (Raise e, w') => (Raise e, w')
    end.

(** Calling a collaborator: it returns or raises, the world is untouched. *)
Definition call {A : Type} (r : result A) : M A := fun w => (r, w).

(** [try: body  except Exception as e: handler e] *)
Definition try_except {A : Type} (body : M A) (handler : exn -> M A) : M A :=
  fun w =>
    match body w with
    | (Ok a, w') => (Ok a, w')
    | (Raise e, w') => handler e w'
    end.

Definition emit (r : LogRecord) : M unit :=
  fun w => (Ok tt, mkWorld (isosurface_helper w) (log w ++ [r])).

Definition logging_info (s : string) : M unit := emit (info s).
Definition logging_error (s : string) (e : exn) : M unit := emit (error s e).

Definition get_isosurface_helper : M (option MarchingCubeHelperT) :=
  fun w => (Ok (isosurface_helper w), w).

Definition set_isosurface_helper (h : option MarchingCubeHelperT) : M unit :=
  fun w => (Ok tt, mkWorld h (log w)).

Declare Scope m_scope.
Delimit Scope m_scope with M.
Notation "x <- m ;; k" := (bind m (fun x => k))
  (at level 61, m at next level, right associativity) : m_scope.
Notation "m ;; k" := (bind m (fun _ => k))
  (at level 61, right associativity) : m_scope.

Local Open Scope string_scope.

(** ** [TSR.set_marching_cubes_resolution] *)

(** [self.isosurface_helper is not None
     and self.isosurface_helper.resolution == resolution] *)
Definition resolution_is_set (h : option MarchingCubeHelperT) (resolution : Z) : bool :=
  match h with
  | Some hp => Z.eqb (helper_resolution hp) resolution
  | None => false
  end.

Definition set_marching_cubes_resolution (resolution : Z) : M unit :=
  (logging_info "Setting marching cubes resolution..." ;;
   try_except
     (h <- get_isosurface_helper ;;
      if resolution_is_set h resolution
      then logging_info "Marching cubes resolution is already set to the desired value."
      else
        hp <- call (MarchingCubeHelper resolution) ;;
        set_isosurface_helper (Some hp) ;;
        logging_info "Marching cubes resolution set successfully.")
     (fun e => logging_error "Failed to set marching cubes resolution: %s" e))%M.

(** ** [TSR.render] and its local function [process_output] *)

(** [.astype(np.uint8)] on a float32 value: the C conversion drops the
    fractional part; it is defined when the integer part fits a byte. *)
Definition astype_uint8 (x : float32) : Z :=
  match f32_trunc x with
  | Some t => if (0 <=? t)%Z && (t <=? 255)%Z then t else uint8_cast_undefined x
  | None => uint8_cast_undefined x
  end.

(** What [process_output] returns: the tensor itself, the host array with
    the same values, or the PIL image given by its 8-bit samples. *)
Inductive Output : Type :=
| OutPt (image : list float32)
| OutNp (array : list float32)
| OutPil (pixels : list Z).

Definition process_output (return_type : string) (image : list float32) : result Output :=
  if String.eqb return_type "pt" then Ok (OutPt image)
  else if String.eqb return_type "np" then Ok (OutNp image)
  else if String.eqb return_type "pil" then
    Ok (OutPil (map (fun x => astype_uint8 (f32_mul x f255)) image))
  else Raise NotImplementedError.

(** [t[i]] *)
Definition getitem {A : Type} (t : list A) (i : nat) : result A :=
  match nth_error t i with
  | Some a => Ok a
  | None => Raise (IndexError "index out of range")
  end.

(** [range(n)] *)
Definition range (n : Z) : list nat := seq 0 (Z.to_nat n).

(** The inner loop [for i in range(n_views)] for one scene code. *)
Fixpoint render_views (return_type : string) (scene_code : SceneCode)
    (rays_o rays_d : list Rays) (views : list nat) : result (list Output) :=
  match views with
  | [] => Ok []
  | i :: views' =>
      (o <- getitem rays_o i ;;
       d <- getitem rays_d i ;;
       image <- renderer decoder scene_code o d ;;
       out <- process_output return_type image ;;
       images_ <- render_views return_type scene_code rays_o rays_d views' ;;
       Ok (out :: images_))%res
  end.

(** The outer loop [for scene_code in scene_codes]. *)
Fixpoint render_scenes (return_type : string) (rays_o rays_d : list Rays)
    (n_views : Z) (scene_codes : list SceneCode) : result (list (list Output)) :=
  match scene_codes with
  | [] => Ok []
  | scene_code :: scene_codes' =>
      (images_ <- render_views return_type scene_code rays_o rays_d (range n_views) ;;
       images <- render_scenes return_type rays_o rays_d n_views scene_codes' ;;
       Ok (images_ :: images))%res
  end.

Definition render (scene_codes : list SceneCode) (n_views : Z)
    (elevation_deg camera_distance fovy_deg : Scalar) (height width : Z)
    (return_type : string) : result (list (list Output)) :=
  (rays <- get_spherical_cameras n_views elevation_deg camera_distance fovy_deg height width ;;
   rays_o <- rays_to (fst rays) ;;
   rays_d <- rays_to (snd rays) ;;
   render_scenes return_type rays_o rays_d n_views scene_codes)%res.

(** ** [TSR.extract_mesh] *)

(** The four guarded stages of one loop iteration, as the expressions of
    the source evaluate them.  Attribute access on [self.isosurface_helper]
    raises when the attribute holds [None]. *)

Definition helper_attr (helper : option MarchingCubeHelperT) (attr : string)
    : result MarchingCubeHelperT :=
  match helper with
  | Some h => Ok h
  | None => Raise (AttributeError ("'NoneType' object has no attribute '" ++ attr ++ "'"))
  end.

(** [self.renderer.query_triplane(self.decoder,
       scale_tensor(self.isosurface_helper.grid_vertices.to(scene_codes.device),
                    self.isosurface_helper.points_range,
                    (-self.renderer.cfg.radius, self.renderer.cfg.radius)),
       scene_code)["density_act"]] *)
Definition query_density (helper : option MarchingCubeHelperT) (scene_code : SceneCode)
    : result Tensor :=
  (h <- helper_attr helper "grid_vertices" ;;
   vertices <- grid_vertices h ;;
   vertices <- tensor_to vertices ;;
   h' <- helper_attr helper "points_range" ;;
   points <- scale_tensor vertices (points_range h') (scalar_neg radius, radius) ;;
   out <- query_triplane decoder points scene_code ;;
   Ok (density_act out))%res.

(** [v_pos, t_pos_idx = self.isosurface_helper(-(density - threshold))]
    followed by the rescaling of [v_pos]. *)
Definition isosurface (helper : option MarchingCubeHelperT) (density : Tensor)
    (threshold : Scalar) : result (Tensor * Tensor) :=
  (h <- match helper with
        | Some h => Ok h
        | None => Raise (TypeError "'NoneType' object is not callable")
        end ;;
   vt <- helper_call h (tensor_neg (tensor_sub density threshold)) ;;
   h' <- helper_attr helper "points_range" ;;
   v_pos <- scale_tensor (fst vt) (points_range h') (scalar_neg radius, radius) ;;
   Ok (v_pos, snd vt))%res.

(** [self.renderer.query_triplane(self.decoder, v_pos, scene_code)["color"]] *)
Definition query_color (v_pos : Tensor) (scene_code : SceneCode) : result Tensor :=
  (out <- query_triplane decoder v_pos scene_code ;;
   Ok (color out))%res.

(** [trimesh.Trimesh(vertices=v_pos.cpu().numpy(), faces=t_pos_idx.cpu().numpy(),
                     vertex_colors=color.cpu().numpy())] *)
Definition create_mesh (v_pos t_pos_idx color_ : Tensor) : result Mesh :=
  (vertices <- cpu_numpy v_pos ;;
   faces <- cpu_numpy t_pos_idx ;;
   vertex_colors <- cpu_numpy color_ ;;
   Trimesh vertices faces vertex_colors)%res.

(** A guarded stage [try: x = stage; log ok  except Exception as e: log; continue]:
    [None] stands for [continue]. *)
Definition guarded {A : Type} (stage : M A) (failed : string) : M (option A) :=
  try_except
    (x <- stage ;; ret (Some x))%M
    (fun e => logging_error failed e ;; ret None)%M.

(** The loop [for scene_code in scene_codes]; [meshes] is the list built so
    far.  When the loop runs out of scene codes the function body ends
    without a [return] statement, so the call yields [None]. *)
Fixpoint extract_loop (threshold : Scalar) (scene_codes : list SceneCode)
    (meshes : list Mesh) {struct scene_codes} : M (option (list Mesh)) :=
  match scene_codes with
  | [] => ret None
  | scene_code :: scene_codes' =>
      (logging_info "Processing scene code..." ;;
       density <-
         try_except
           (logging_info "Querying triplane for density..." ;;
            density <-
              guarded (h <- get_isosurface_helper ;; call (query_density h scene_code))
                      "Failed to query triplane for density: %s" ;;
            match density with
            | None => ret None
            | Some d =>
                logging_info "Successfully queried triplane for density." ;;
                ret (Some d)
            end)
           (fun e => logging_error "Failed to process scene code: %s" e ;; ret None) ;;
       match density with
       | None => extract_loop threshold scene_codes' meshes
       | Some density =>
           logging_info "Scene code processed successfully." ;;
           vt <-
             guarded (logging_info "Calculating v_pos and t_pos_idx..." ;;
                      h <- get_isosurface_helper ;;
                      vt <- call (isosurface h density threshold) ;;
                      logging_info "Successfully calculated v_pos and t_pos_idx." ;;
                      ret vt)
                     "Failed to calculate v_pos and t_pos_idx: %s" ;;
           match vt with
           | None => extract_loop threshold scene_codes' meshes
           | Some (v_pos, t_pos_idx) =>
               color_ <-
                 guarded (logging_info "Querying triplane for color..." ;;
                          color_ <- call (query_color v_pos scene_code) ;;
                          logging_info "Successfully queried triplane for color." ;;
                          ret color_)
                         "Failed to query triplane for color: %s" ;;
               match color_ with
               | None => extract_loop threshold scene_codes' meshes
               | Some color_ =>
                   meshes' <-
                     guarded (logging_info "Creating and appending mesh..." ;;
                              mesh <- call (create_mesh v_pos t_pos_idx color_) ;;
                              logging_info "Successfully created and appended mesh." ;;
                              ret (meshes ++ [mesh])%list)
                             "Failed to create and append mesh: %s" ;;
                   match meshes' with
                   | None => extract_loop threshold scene_codes' meshes
                   | Some meshes' =>
                       logging_info "Mesh extraction completed." ;;
                       ret (Some meshes')
                   end
               end
           end
       end)%M
  end.

(** The handler of the [try] around the setup call:
    [logging.error(...); return None]. *)
Definition setup_failed (e : exn) : M (option (option (list Mesh))) :=
  (logging_error "Failed to set marching cubes resolution: %s" e ;;
   ret (Some None))%M.

(** [extract_mesh] with the handler of its first [try] statement left open;
    a handler answers [Some v] to make the method return [v]. *)
Definition extract_mesh_with (handler : exn -> M (option (option (list Mesh))))
    (scene_codes : list SceneCode) (resolution : Z) (threshold : Scalar)
    : M (option (list Mesh)) :=
  (logging_info "Starting mesh extraction..." ;;
   returned <- try_except (set_marching_cubes_resolution resolution ;; ret None) handler ;;
   match returned with
   | Some value => ret value
   | None => extract_loop threshold scene_codes []
   end)%M.

Definition extract_mesh : list SceneCode -> Z -> Scalar -> M (option (list Mesh)) :=
  extract_mesh_with setup_failed.

(** ** Vocabulary for the statements *)

(** The world with more records logged. *)
Definition add_log (w : World) (l : list LogRecord) : World :=
  mkWorld (isosurface_helper w) (log w ++ l).

(** The four stages of one iteration chained: the mesh of a scene code that
    passes every stage, or the exception of the first stage that fails. *)
Definition build_mesh (helper : option MarchingCubeHelperT) (threshold : Scalar)
    (scene_code : SceneCode) : result Mesh :=
  (density <- query_density helper scene_code ;;
   vt <- isosurface helper density threshold ;;
   color_ <- query_color (fst vt) scene_code ;;
   create_mesh (fst vt) (snd vt) color_)%res.

(** The mesh of the first scene code of the batch that passes every stage. *)
Fixpoint first_mesh (helper : option MarchingCubeHelperT) (threshold : Scalar)
    (scene_codes : list SceneCode) : option Mesh :=
  match scene_codes with
  | [] => None
  | sc :: scene_codes' =>
      match build_mesh helper threshold sc with
      | Ok m => Some m
      | Raise _ => first_mesh helper threshold scene_codes'
      end
  end.

(** Stage by stage: scene code [sc] fails with [e] at the density query,
    at the iso-surface extraction, at the color query or at the assembly,
    the earlier stages having passed. *)
Definition stage_failure (helper : option MarchingCubeHelperT) (threshold : Scalar)
    (sc : SceneCode) (e : exn) : Prop :=
  query_density helper sc = Raise e \/
  (exists density,
     query_density helper sc = Ok density /\
     isosurface helper density threshold = Raise e) \/
  (exists density vt,
     query_density helper sc = Ok density /\
     isosurface helper density threshold = Ok vt /\
     query_color (fst vt) sc = Raise e) \/
  (exists density vt color_,
     query_density helper sc = Ok density /\
     isosurface helper density threshold = Ok vt /\
     query_color (fst vt) sc = Ok color_ /\
     create_mesh (fst vt) (snd vt) color_ = Raise e).

(** The records one iteration of the loop hands to [logging]. *)
Definition item_records (helper : option MarchingCubeHelperT) (threshold : Scalar)
    (scene_code : SceneCode) : list LogRecord :=
  [info "Processing scene code..."; info "Querying triplane for density..."] ++
  match query_density helper scene_code with
  | Raise e => [error "Failed to query triplane for density: %s" e]
  | Ok density =>
      [info "Successfully queried triplane for density.";
       info "Scene code processed successfully.";
       info "Calculating v_pos and t_pos_idx..."] ++
      match isosurface helper density threshold with
      | Raise e => [error "Failed to calculate v_pos and t_pos_idx: %s" e]
      | Ok (v_pos, t_pos_idx) =>
          [info "Successfully calculated v_pos and t_pos_idx.";
           info "Querying triplane for color..."] ++
          match query_color v_pos scene_code with
          | Raise e => [error "Failed to query triplane for color: %s" e]
          | Ok color_ =>
              [info "Successfully queried triplane for color.";
               info "Creating and appending mesh..."] ++
              match create_mesh v_pos t_pos_idx color_ with
              | Raise e => [error "Failed to create and append mesh: %s" e]
              | Ok _ =>
                  [info "Successfully created and appended mesh.";
                   info "Mesh extraction completed."]
              end
          end
      end
  end%list.

(** The world once [extract_mesh] has logged that it starts. *)
Definition started (w : World) : World :=
  add_log w [info "Starting mesh extraction..."].

(** The helper [extract_mesh] works with: the one stored once the setup
    call has returned. *)
Definition helper_after_setup (resolution : Z) (w : World) : option MarchingCubeHelperT :=
  isosurface_helper (snd (set_marching_cubes_resolution resolution w)).

(** How many scene codes a run started to process: every iteration opens
    with the record 'Processing scene code...'. *)
Definition scene_codes_processed (l : list LogRecord) : nat :=
  List.length (filter (fun r => String.eqb (msg r) "Processing scene code...") l).

(** The calls that make the mesh [m] of scene code [sc] with helper [hp]:
    which collaborator receives which value. *)
Definition mesh_dataflow (hp : MarchingCubeHelperT) (threshold : Scalar)
    (sc : SceneCode) (m : Mesh) : Prop :=
  exists vertices vertices' points queried vt v_pos coloured,
    grid_vertices hp = Ok vertices /\
    tensor_to vertices = Ok vertices' /\
    scale_tensor vertices' (points_range hp) (scalar_neg radius, radius) = Ok points /\
    query_triplane decoder points sc = Ok queried /\
    helper_call hp (tensor_neg (tensor_sub (density_act queried) threshold)) = Ok vt /\
    scale_tensor (fst vt) (points_range hp) (scalar_neg radius, radius) = Ok v_pos /\
    query_triplane decoder v_pos sc = Ok coloured /\
    create_mesh v_pos (snd vt) (color coloured) = Ok m.

(** The scene codes the loop gets to: the batch up to and including the
    first scene code that passes every stage. *)
Fixpoint attempted (helper : option MarchingCubeHelperT) (threshold : Scalar)
    (scene_codes : list SceneCode) : list SceneCode :=
  match scene_codes with
  | [] => []
  | sc :: scene_codes' =>
      sc :: match build_mesh helper threshold sc with
            | Ok _ => []
            | Raise _ => attempted helper threshold scene_codes'
            end
  end.

(** The records one call of [set_marching_cubes_resolution] hands to
    [logging], given the helper stored before the call. *)
Definition setup_records (helper : option MarchingCubeHelperT) (resolution : Z)
    : list LogRecord :=
  [info "Setting marching cubes resolution...";
   if resolution_is_set helper resolution
   then info "Marching cubes resolution is already set to the desired value."
   else match MarchingCubeHelper resolution with
        | Ok _ => info "Marching cubes resolution set successfully."
        | Raise e => error "Failed to set marching cubes resolution: %s" e
        end].

(** Records at error level, and records with a given message. *)
Definition is_error (r : LogRecord) : bool :=
  match levelname r with
  | ERROR => true
  | INFO => false
  end.

Definition errors_logged (l : list LogRecord) : nat :=
  List.length (filter is_error l).

Definition logged_with (message : string) (l : list LogRecord) : nat :=
  List.length (filter (fun r => String.eqb (msg r) message) l).

(** View [i] of scene code [sc] gave the output [out]: the rays of the
    view, the renderer's image and its conversion. *)
Definition rendered (return_type : string) (rays_o rays_d : list Rays)
    (sc : SceneCode) (i : nat) (out : Output) : Prop :=
  exists o d image,
    getitem rays_o i = Ok o /\
    getitem rays_d i = Ok d /\
    renderer decoder sc o d = Ok image /\
    process_output return_type image = Ok out.

End TSR.

Arguments World C : clear implicits.
Arguments M C A : clear implicits.

(** ** The conversion of the specification

    The specification words the "pil" conversion as [round(x*255)] cast to
    an unsigned byte.  [round_mantissa] is the nearest integer of [m * 2^e],
    ties to the even one, as Python's and numpy's [round]. *)

Definition round_mantissa (m : positive) (e : Z) : Z :=
  match e with
  | Z0 => Zpos m
  | Zpos p => Z.shiftl (Zpos m) (Zpos p)
  | Zneg p =>
      let q := Z.shiftr (Zpos m) (Zpos p) in
      let r := (Zpos m - Z.shiftl q (Zpos p))%Z in
      let half := Z.shiftl 1 (Zpos p - 1) in
      if (r <? half)%Z then q
      else if (half <? r)%Z then (q + 1)%Z
      else if Z.even q then q else (q + 1)%Z
  end.

Definition pil_pixel_per_spec (x : float32) : option Z :=
  match f32_mul x f255 with
  | S754_zero _ => Some 0%Z
  | S754_finite s m e => Some (if s then Z.opp (round_mantissa m e) else round_mantissa m e)
  | S754_infinity _ => None
  | S754_nan => None
  end.

(** ** A bench of collaborators

    Small stand-ins on integers, used to run the methods on concrete
    inputs: a one-dimensional grid, a decoder that refuses negative scene
    codes, and a helper class that refuses resolutions outside 1..512. *)

Module Bench.

Definition new_helper (resolution : Z) : result Z :=
  if (resolution <=? 0)%Z then Raise (ValueError "resolution must be positive")
  else if (512 <? resolution)%Z then Raise MemoryError
  else Ok resolution.

Definition grid (h : Z) : result (list Z) :=
  Ok (map Z.of_nat (seq 0 (Z.to_nat h))).

Definition rescale (dat : list Z) (inp tgt : Z * Z) : result (list Z) :=
  Ok (map (fun x => ((x - fst inp) / (snd inp - fst inp) * (snd tgt - fst tgt) + fst tgt)%Z) dat).

Definition query (_ : unit) (points : list Z) (scene_code : Z) : result (TriplaneOutput (list Z)) :=
  if (scene_code <? 0)%Z then Raise (RuntimeError "triplane query failed")
  else Ok (mkTriplaneOutput (map (fun p => (p + scene_code)%Z) points)
                            (map (fun _ => scene_code) points)).

Definition march (h : Z) (level : list Z) : result (list Z * list Z) :=
  Ok (filter (fun x => (0 <=? x)%Z) level, map Z.of_nat (seq 0 (List.length level))).

Definition cameras (n_views : Z) (_ _ _ : Z) (_ _ : Z) : result (list Z * list Z) :=
  Ok (map Z.of_nat (range n_views), map Z.of_nat (range n_views)).

Definition shade (_ : unit) (_ : Z) (_ _ : Z) : result (list float32) :=
  Ok [f32_zero; f32_half; f32_one].

#[export] Instance collaborators : Collaborators := {
  Tensor := list Z;
  NDArray := list Z;
  Scalar := Z;
  SceneCode := Z;
  Decoder := unit;
  Rays := Z;
  Mesh := list Z * list Z * list Z;
  MarchingCubeHelperT := Z;
  MarchingCubeHelper := new_helper;
  helper_resolution := fun h => h;
  grid_vertices := grid;
  points_range := fun _ => (0%Z, 1%Z);
  helper_call := march;
  scale_tensor := rescale;
  get_spherical_cameras := cameras;
  decoder := tt;
  radius := 1%Z;
  query_triplane := query;
  renderer := shade;
  scalar_neg := Z.opp;
  tensor_sub := fun t s => map (fun x => (x - s)%Z) t;
  tensor_neg := map Z.opp;
  tensor_to := fun t => Ok t;
  rays_to := fun r => Ok r;
  cpu_numpy := fun t => Ok t;
  uint8_cast_undefined := fun _ => 0%Z;
  Trimesh := fun v f c => Ok (v, f, c)
}.

(** A fresh [TSR] instance ([configure] stores [None]) and one that has
    extracted at resolution 2 before; nothing logged yet. *)
Definition fresh : World collaborators := mkWorld None [].
Definition cached2 : World collaborators := mkWorld (Some 2%Z) [].

(** The meshes of scene codes 3 and 4 on the two-point grid with
    threshold 25: vertices, faces, vertex colors. *)
Definition mesh3 : list Z * list Z * list Z := ([45; 41], [0; 1], [3; 3])%Z.
Definition mesh4 : list Z * list Z * list Z := ([43; 39], [0; 1], [4; 4])%Z.

Definition query_failed : exn := RuntimeError "triplane query failed".

(** A second set of stand-ins in which every stage can fail: the decoder
    also refuses points further than 40 from the origin, the helper refuses
    a field without a non-negative sample, the mesh constructor refuses a
    face index beyond the vertices, and the renderer refuses negative scene
    codes. *)

Definition query_near (_ : unit) (points : list Z) (scene_code : Z)
    : result (TriplaneOutput (list Z)) :=
  if (scene_code <? 0)%Z then Raise (RuntimeError "triplane query failed")
  else if existsb (fun p => (40 <? Z.abs p)%Z) points
       then Raise (ValueError "point outside the triplane")
       else Ok (mkTriplaneOutput (map (fun p => (p + scene_code)%Z) points)
                                 (map (fun _ => scene_code) points)).

Definition march_surface (h : Z) (level : list Z) : result (list Z * list Z) :=
  match filter (fun x => (0 <=? x)%Z) level with
  | [] => Raise (ValueError "no surface")
  | vertices => Ok (vertices, map Z.of_nat (seq 0 (List.length level)))
  end.

Definition checked_mesh (v f c : list Z) : result (list Z * list Z * list Z) :=
  if existsb (fun i => (Z.of_nat (List.length v) <=? i)%Z) f
  then Raise (ValueError "face index out of range")
  else Ok (v, f, c).

Definition shade_known (_ : unit) (scene_code : Z) (_ _ : Z) : result (list float32) :=
  if (scene_code <? 0)%Z then Raise (RuntimeError "render failed")
  else Ok [f32_zero; f32_half; f32_one].

Definition flaky : Collaborators := {|
  Tensor := list Z;
  NDArray := list Z;
  Scalar := Z;
  SceneCode := Z;
  Decoder := unit;
  Rays := Z;
  Mesh := list Z * list Z * list Z;
  MarchingCubeHelperT := Z;
  MarchingCubeHelper := new_helper;
  helper_resolution := fun h => h;
  grid_vertices := grid;
  points_range := fun _ => (0%Z, 1%Z);
  helper_call := march_surface;
  scale_tensor := rescale;
  get_spherical_cameras := cameras;
  decoder := tt;
  radius := 1%Z;
  query_triplane := query_near;
  renderer := shade_known;
  scalar_neg := Z.opp;
  tensor_sub := fun t s => map (fun x => (x - s)%Z) t;
  tensor_neg := map Z.opp;
  tensor_to := fun t => Ok t;
  rays_to := fun r => Ok r;
  cpu_numpy := fun t => Ok t;
  uint8_cast_undefined := fun _ => 0%Z;
  Trimesh := checked_mesh
|}.

Definition flaky2 : World flaky := mkWorld (C := flaky) (Some 2%Z) [].

End Bench.

(** * Properties *)

Section Facts.

Context {C : Collaborators}.

Unset Implicit Arguments.

Local Open Scope string_scope.
Local Open Scope list_scope.

(** ** Running the monad *)

Lemma add_log_add_log (w : World C) (l1 l2 : list LogRecord) :
  add_log (add_log w l1) l2 = add_log w (l1 ++ l2).
Proof.
  unfold add_log; simpl. now rewrite app_assoc.
Qed.

Lemma add_log_helper (w : World C) (l : list LogRecord) :
  isosurface_helper (add_log w l) = isosurface_helper w.
Proof. reflexivity. Qed.

Lemma logging_info_run (s : string) (w : World C) :
  logging_info s w = (Ok tt, add_log w [info s]).
Proof. reflexivity. Qed.

Lemma logging_error_run (s : string) (e : exn) (w : World C) :
  logging_error s e w = (Ok tt, add_log w [error s e]).
Proof. reflexivity. Qed.

(** ** The three ways through [set_marching_cubes_resolution] *)

Ltac run_setup :=
  unfold set_marching_cubes_resolution, bind, try_except, get_isosurface_helper,
    set_isosurface_helper, call;
  rewrite ?logging_info_run; simpl.

Lemma setup_cache_hit (resolution : Z) (w : World C) :
  resolution_is_set (isosurface_helper w) resolution = true ->
  set_marching_cubes_resolution resolution w =
    (Ok tt, add_log w [info "Setting marching cubes resolution...";
                       info "Marching cubes resolution is already set to the desired value."]).
Proof.
  intros Hset. run_setup. rewrite Hset.
  rewrite logging_info_run, add_log_add_log. reflexivity.
Qed.

Lemma setup_rebuilt (resolution : Z) (w : World C) (hp : MarchingCubeHelperT) :
  resolution_is_set (isosurface_helper w) resolution = false ->
  MarchingCubeHelper resolution = Ok hp ->
  set_marching_cubes_resolution resolution w =
    (Ok tt, mkWorld (Some hp)
              (log w ++ [info "Setting marching cubes resolution...";
                         info "Marching cubes resolution set successfully."])).
Proof.
  intros Hset Hnew. run_setup. rewrite Hset, Hnew. simpl.
  unfold logging_info, emit. simpl. now rewrite <- app_assoc.
Qed.

Lemma setup_rebuild_raised (resolution : Z) (w : World C) (e : exn) :
  resolution_is_set (isosurface_helper w) resolution = false ->
  MarchingCubeHelper resolution = Raise e ->
  set_marching_cubes_resolution resolution w =
    (Ok tt, add_log w [info "Setting marching cubes resolution...";
                       error "Failed to set marching cubes resolution: %s" e]).
Proof.
  intros Hset Hnew. run_setup. rewrite Hset, Hnew.
  rewrite logging_error_run, add_log_add_log. reflexivity.
Qed.

Lemma setup_returns (resolution : Z) (w : World C) :
  exists w', set_marching_cubes_resolution resolution w = (Ok tt, w').
Proof.
  destruct (resolution_is_set (isosurface_helper w) resolution) eqn:Hset.
  - eexists. exact (setup_cache_hit _ _ Hset).
  - destruct (MarchingCubeHelper resolution) as [hp | e] eqn:Hnew.
    + eexists. exact (setup_rebuilt _ _ _ Hset Hnew).
    + eexists. exact (setup_rebuild_raised _ _ _ Hset Hnew).
Qed.

Lemma setup_helper_log_irrelevant (resolution : Z) (w : World C) (l : list LogRecord) :
  isosurface_helper (snd (set_marching_cubes_resolution resolution (add_log w l))) =
  isosurface_helper (snd (set_marching_cubes_resolution resolution w)).
Proof.
  destruct (resolution_is_set (isosurface_helper w) resolution) eqn:Hset.
  - rewrite !setup_cache_hit by assumption. reflexivity.
  - destruct (MarchingCubeHelper resolution) as [hp | e] eqn:Hnew.
    + rewrite (setup_rebuilt _ (add_log w l) _ Hset Hnew), (setup_rebuilt _ w _ Hset Hnew).
      reflexivity.
    + rewrite (setup_rebuild_raised _ (add_log w l) _ Hset Hnew),
        (setup_rebuild_raised _ w _ Hset Hnew).
      reflexivity.
Qed.

(** C7. When the construction [MarchingCubeHelper(resolution)] raises,
    [set_marching_cubes_resolution] returns normally and the helper stored
    before the call (or [None]) is still stored after it, whatever the
    prior state and the requested resolution; when the rebuild was reached
    (no cache hit) the exception is logged at error level. *)
Theorem rebuild_failure_keeps_helper (resolution : Z) (w : World C) (e : exn) :
  MarchingCubeHelper resolution = Raise e ->
  fst (set_marching_cubes_resolution resolution w) = Ok tt /\
  isosurface_helper (snd (set_marching_cubes_resolution resolution w)) = isosurface_helper w /\
  (resolution_is_set (isosurface_helper w) resolution = false ->
   log (snd (set_marching_cubes_resolution resolution w)) =
     log w ++ [info "Setting marching cubes resolution...";
               error "Failed to set marching cubes resolution: %s" e]).
Proof.
  intros Hnew.
  destruct (resolution_is_set (isosurface_helper w) resolution) eqn:Hset.
  - rewrite setup_cache_hit by assumption. simpl. repeat split. discriminate.
  - rewrite (setup_rebuild_raised _ _ _ Hset Hnew). simpl. repeat split.
Qed.

(** ** One iteration of the loop of [extract_mesh] *)

Ltac run_stage :=
  unfold guarded;
  unfold bind, try_except, call, ret, get_isosurface_helper,
    logging_info, logging_error, emit, add_log;
  cbn [isosurface_helper log fst snd rbind].

Ltac same_world :=
  cbn [isosurface_helper log fst snd app];
  rewrite <- ?app_assoc; cbn [app]; try reflexivity.

Lemma extract_loop_step (threshold : Scalar) (sc : SceneCode) (rest : list SceneCode)
    (meshes : list Mesh) (w : World C) :
  extract_loop threshold (sc :: rest) meshes w =
  match build_mesh (isosurface_helper w) threshold sc with
  | Ok m =>
      (Ok (Some (meshes ++ [m])),
       add_log w (item_records (isosurface_helper w) threshold sc))
  | Raise _ =>
      extract_loop threshold rest meshes
        (add_log w (item_records (isosurface_helper w) threshold sc))
  end.
Proof.
  unfold build_mesh, item_records. cbn [extract_loop]. run_stage.
  destruct (query_density (isosurface_helper w) sc) as [density | e]; run_stage;
    [| f_equal; same_world].
  destruct (isosurface (isosurface_helper w) density threshold) as [[v_pos t_pos_idx] | e];
    run_stage; [| f_equal; same_world].
  destruct (query_color v_pos sc) as [color_ | e]; run_stage; [| f_equal; same_world].
  destruct (create_mesh v_pos t_pos_idx color_) as [mesh | e]; run_stage;
    [| f_equal; same_world].
  f_equal. same_world.
Qed.

Lemma extract_loop_returns (threshold : Scalar) (sc : SceneCode) (rest : list SceneCode)
    (meshes : list Mesh) (w : World C) (m : Mesh) :
  build_mesh (isosurface_helper w) threshold sc = Ok m ->
  extract_loop threshold (sc :: rest) meshes w =
    (Ok (Some (meshes ++ [m])),
     add_log w (item_records (isosurface_helper w) threshold sc)).
Proof.
  intros Hm. rewrite extract_loop_step, Hm. reflexivity.
Qed.

Lemma extract_loop_continues (threshold : Scalar) (sc : SceneCode) (rest : list SceneCode)
    (meshes : list Mesh) (w : World C) (e : exn) :
  build_mesh (isosurface_helper w) threshold sc = Raise e ->
  extract_loop threshold (sc :: rest) meshes w =
    extract_loop threshold rest meshes
      (add_log w (item_records (isosurface_helper w) threshold sc)).
Proof.
  intros Hm. rewrite extract_loop_step, Hm. reflexivity.
Qed.

(** A run of scene codes that all fail some stage is skipped as a whole. *)
Lemma extract_loop_skips (threshold : Scalar) (skipped rest : list SceneCode)
    (meshes : list Mesh) (w : World C) :
  Forall (fun sc => exists e, build_mesh (isosurface_helper w) threshold sc = Raise e)
         skipped ->
  extract_loop threshold (skipped ++ rest) meshes w =
    extract_loop threshold rest meshes
      (add_log w (flat_map (item_records (isosurface_helper w) threshold) skipped)).
Proof.
  revert w. induction skipped as [| sc skipped IH]; intros w Hfail.
  - cbn [app flat_map]. unfold add_log. rewrite app_nil_r. now destruct w.
  - inversion Hfail as [| ? ? [e He] Hrest]; subst.
    cbn [app flat_map]. rewrite (extract_loop_continues threshold sc (skipped ++ rest) meshes w e He).
    rewrite IH by (rewrite add_log_helper; exact Hrest).
    rewrite add_log_helper, add_log_add_log. reflexivity.
Qed.

Lemma scene_codes_processed_app (l1 l2 : list LogRecord) :
  scene_codes_processed (l1 ++ l2) = (scene_codes_processed l1 + scene_codes_processed l2)%nat.
Proof.
  unfold scene_codes_processed. now rewrite filter_app, length_app.
Qed.

Lemma item_records_processed (helper : option MarchingCubeHelperT) (threshold : Scalar)
    (sc : SceneCode) :
  scene_codes_processed (item_records helper threshold sc) = 1%nat.
Proof.
  unfold item_records.
  destruct (query_density helper sc) as [density | e]; [| reflexivity].
  destruct (isosurface helper density threshold) as [[v_pos t_pos_idx] | e]; [| reflexivity].
  destruct (query_color v_pos sc) as [color_ | e]; [| reflexivity].
  destruct (create_mesh v_pos t_pos_idx color_) as [mesh | e]; reflexivity.
Qed.

Lemma skipped_records_processed (helper : option MarchingCubeHelperT) (threshold : Scalar)
    (scs : list SceneCode) :
  scene_codes_processed (flat_map (item_records helper threshold) scs) = List.length scs.
Proof.
  induction scs as [| sc scs IH]; [reflexivity |].
  cbn [flat_map List.length].
  now rewrite scene_codes_processed_app, item_records_processed, IH.
Qed.

(** ** [extract_mesh] is the loop run after the setup *)

Lemma extract_mesh_with_run (handler : exn -> M C (option (option (list Mesh))))
    (scs : list SceneCode) (resolution : Z) (threshold : Scalar) (w : World C) :
  extract_mesh_with handler scs resolution threshold w =
    extract_loop threshold scs []
      (snd (set_marching_cubes_resolution resolution (started w))).
Proof.
  unfold extract_mesh_with, started.
  destruct (setup_returns resolution (add_log w [info "Starting mesh extraction..."]))
    as [w' Hw'].
  unfold bind at 1. rewrite logging_info_run.
  unfold bind at 1. unfold try_except, bind at 1. rewrite Hw'. reflexivity.
Qed.

Lemma started_helper_after_setup (resolution : Z) (w : World C) :
  isosurface_helper (snd (set_marching_cubes_resolution resolution (started w))) =
  helper_after_setup resolution w.
Proof.
  unfold started, helper_after_setup. apply setup_helper_log_irrelevant.
Qed.

Lemma setup_processes_nothing (resolution : Z) (w : World C) :
  scene_codes_processed (log (snd (set_marching_cubes_resolution resolution w))) =
  scene_codes_processed (log w).
Proof.
  destruct (resolution_is_set (isosurface_helper w) resolution) eqn:Hset.
  - rewrite setup_cache_hit by assumption. cbn [snd add_log log].
    rewrite scene_codes_processed_app. cbn. lia.
  - destruct (MarchingCubeHelper resolution) as [hp | e] eqn:Hnew.
    + rewrite (setup_rebuilt _ _ _ Hset Hnew). cbn [snd log].
      rewrite scene_codes_processed_app. cbn. lia.
    + rewrite (setup_rebuild_raised _ _ _ Hset Hnew). cbn [snd add_log log].
      rewrite scene_codes_processed_app. cbn. lia.
Qed.

Lemma stage_failure_build_mesh (helper : option MarchingCubeHelperT) (threshold : Scalar)
    (sc : SceneCode) (e : exn) :
  stage_failure helper threshold sc e <-> build_mesh helper threshold sc = Raise e.
Proof.
  unfold stage_failure, build_mesh. split.
  - intros [H | [(d & Hd & H) | [(d & vt & Hd & Hvt & H) | (d & vt & c & Hd & Hvt & Hc & H)]]].
    + now rewrite H.
    + now rewrite Hd; cbn; rewrite H.
    + now rewrite Hd; cbn; rewrite Hvt; cbn; rewrite H.
    + now rewrite Hd; cbn; rewrite Hvt; cbn; rewrite Hc.
  - destruct (query_density helper sc) as [d | e0] eqn:Hd; cbn.
    2:{ intros [= ->]. now left. }
    destruct (isosurface helper d threshold) as [vt | e0] eqn:Hvt; cbn.
    2:{ intros [= ->]. right; left. now exists d. }
    destruct (query_color (fst vt) sc) as [c | e0] eqn:Hc; cbn.
    2:{ intros [= ->]. right; right; left. now exists d, vt. }
    intros H. right; right; right. now exists d, vt, c.
Qed.

Lemma build_mesh_dataflow (hp : MarchingCubeHelperT) (threshold : Scalar)
    (sc : SceneCode) (m : Mesh) :
  build_mesh (Some hp) threshold sc = Ok m <-> mesh_dataflow hp threshold sc m.
Proof.
  unfold build_mesh, mesh_dataflow, query_density, isosurface, query_color, helper_attr.
  cbn [rbind]. split.
  - destruct (grid_vertices hp) as [vertices | e] eqn:H1; cbn [rbind]; [| discriminate].
    destruct (tensor_to vertices) as [vertices' | e] eqn:H2; cbn [rbind]; [| discriminate].
    destruct (scale_tensor vertices' (points_range hp) (scalar_neg radius, radius))
      as [points | e] eqn:H3; cbn [rbind]; [| discriminate].
    destruct (query_triplane decoder points sc) as [queried | e] eqn:H4;
      cbn [rbind]; [| discriminate].
    destruct (helper_call hp (tensor_neg (tensor_sub (density_act queried) threshold)))
      as [vt | e] eqn:H5; cbn [rbind]; [| discriminate].
    destruct (scale_tensor (fst vt) (points_range hp) (scalar_neg radius, radius))
      as [v_pos | e] eqn:H6; cbn [rbind fst snd]; [| discriminate].
    destruct (query_triplane decoder v_pos sc) as [coloured | e] eqn:H7;
      cbn [rbind]; [| discriminate].
    intros H8. exists vertices, vertices', points, queried, vt, v_pos, coloured.
    repeat split; assumption.
  - intros (vertices & vertices' & points & queried & vt & v_pos & coloured &
            H1 & H2 & H3 & H4 & H5 & H6 & H7 & H8).
    rewrite H1; cbn [rbind]. rewrite H2; cbn [rbind]. rewrite H3; cbn [rbind].
    rewrite H4; cbn [rbind]. rewrite H5; cbn [rbind]. rewrite H6; cbn [rbind fst snd].
    rewrite H7; cbn [rbind]. exact H8.
Qed.

Lemma build_mesh_without_helper (threshold : Scalar) (sc : SceneCode) :
  build_mesh None threshold sc =
    Raise (AttributeError "'NoneType' object has no attribute 'grid_vertices'").
Proof. reflexivity. Qed.

(** A mesh list returned by the loop is the accumulated list plus the mesh
    of one scene code of the batch. *)
Lemma extract_loop_yields (threshold : Scalar) (scs : list SceneCode) (meshes : list Mesh)
    (w : World C) (ms : list Mesh) :
  fst (extract_loop threshold scs meshes w) = Ok (Some ms) ->
  exists sc m, In sc scs /\ build_mesh (isosurface_helper w) threshold sc = Ok m /\
               ms = meshes ++ [m].
Proof.
  revert w. induction scs as [| sc scs IH]; intros w.
  - cbn. discriminate.
  - rewrite extract_loop_step.
    destruct (build_mesh (isosurface_helper w) threshold sc) as [m | e] eqn:Hm.
    + cbn [fst]. intros [= <-]. exists sc, m. repeat split; [now left | exact Hm].
    + intros Hrun. destruct (IH _ Hrun) as (sc' & m & Hin & Hm' & ->).
      exists sc', m. repeat split; [now right | exact Hm'].
Qed.

(** What the loop and the whole method return, as a function of the batch. *)
Lemma extract_loop_result (threshold : Scalar) (scs : list SceneCode) (meshes : list Mesh)
    (w : World C) :
  fst (extract_loop threshold scs meshes w) =
    Ok (option_map (fun m => meshes ++ [m]) (first_mesh (isosurface_helper w) threshold scs)).
Proof.
  revert w. induction scs as [| sc scs IH]; intros w; [reflexivity |].
  rewrite extract_loop_step. cbn [first_mesh].
  destruct (build_mesh (isosurface_helper w) threshold sc) as [m | e]; [reflexivity |].
  now rewrite IH, add_log_helper.
Qed.

Lemma extract_mesh_result (scs : list SceneCode) (resolution : Z) (threshold : Scalar)
    (w : World C) :
  fst (extract_mesh scs resolution threshold w) =
    Ok (option_map (fun m => [m]) (first_mesh (helper_after_setup resolution w) threshold scs)).
Proof.
  unfold extract_mesh. rewrite extract_mesh_with_run, extract_loop_result.
  now rewrite started_helper_after_setup.
Qed.

(** ** The setup step *)

(** C5. [set_marching_cubes_resolution] always returns normally: whatever
    is raised inside it is caught and logged there, and the helper stored
    afterwards is either the one stored before or a helper that the
    construction really returned.  Hence the handler of the [try] around
    the setup call in [extract_mesh] never runs: replacing it by any other
    handler leaves every call of [extract_mesh] unchanged. *)
Theorem setup_never_raises (resolution : Z) (w : World C) :
  fst (set_marching_cubes_resolution resolution w) = Ok tt /\
  (isosurface_helper (snd (set_marching_cubes_resolution resolution w)) = isosurface_helper w \/
   exists hp, MarchingCubeHelper resolution = Ok hp /\
              isosurface_helper (snd (set_marching_cubes_resolution resolution w)) = Some hp) /\
  forall (handler : exn -> M C (option (option (list Mesh))))
         (scs : list SceneCode) (threshold : Scalar),
    extract_mesh_with handler scs resolution threshold w =
    extract_mesh scs resolution threshold w.
Proof.
  split; [| split].
  - destruct (setup_returns resolution w) as [w' Hw']. now rewrite Hw'.
  - destruct (resolution_is_set (isosurface_helper w) resolution) eqn:Hset.
    + left. now rewrite setup_cache_hit.
    + destruct (MarchingCubeHelper resolution) as [hp | e] eqn:Hnew.
      * right. exists hp. split; [reflexivity |].
        now rewrite (setup_rebuilt _ _ _ Hset Hnew).
      * left. now rewrite (setup_rebuild_raised _ _ _ Hset Hnew).
  - intros handler scs threshold. unfold extract_mesh.
    now rewrite !extract_mesh_with_run.
Qed.

(** C8, as the code has it.  When the first call with [r] leaves a helper
    of resolution [r] stored (the cache was at [r] already, or the build at
    [r] returned a helper reporting [r]), a second call with [r] takes the
    cache-hit path: it changes nothing but the log, to which it adds the
    'already set' record.  With a helper of resolution [r] cached, a call
    with [r' <> r] whose build returns [hp'] stores [hp']. *)
Theorem resolution_cache (r : Z) (w : World C) :
  (resolution_is_set (isosurface_helper w) r = true \/
   (exists hp, MarchingCubeHelper r = Ok hp /\ helper_resolution hp = r) ->
   let w1 := snd (set_marching_cubes_resolution r w) in
   set_marching_cubes_resolution r w1 =
     (Ok tt, add_log w1 [info "Setting marching cubes resolution...";
                         info "Marching cubes resolution is already set to the desired value."])) /\
  (forall (r' : Z) (hp hp' : MarchingCubeHelperT),
     isosurface_helper w = Some hp -> helper_resolution hp = r -> r' <> r ->
     MarchingCubeHelper r' = Ok hp' ->
     set_marching_cubes_resolution r' w =
       (Ok tt, mkWorld (Some hp')
                 (log w ++ [info "Setting marching cubes resolution...";
                            info "Marching cubes resolution set successfully."]))).
Proof.
  split.
  - intros Hfirst w1. apply setup_cache_hit. subst w1.
    destruct (resolution_is_set (isosurface_helper w) r) eqn:Hset.
    + rewrite setup_cache_hit by assumption. exact Hset.
    + destruct Hfirst as [Habs | [hp [Hnew Hres]]]; [discriminate |].
      rewrite (setup_rebuilt _ _ _ Hset Hnew). cbn.
      rewrite Hres. apply Z.eqb_refl.
  - intros r' hp hp' Hw Hres Hneq Hnew. apply setup_rebuilt; [| exact Hnew].
    rewrite Hw. cbn. rewrite Hres. now apply Z.eqb_neq, not_eq_sym.
Qed.

(** ** The loop over the batch *)

Lemma first_mesh_is_returned (resolution : Z) (threshold : Scalar) (w : World C)
    (skipped : list SceneCode) (sc : SceneCode) (rest : list SceneCode) (m : Mesh) :
  Forall (fun c => exists e,
            build_mesh (helper_after_setup resolution w) threshold c = Raise e) skipped ->
  build_mesh (helper_after_setup resolution w) threshold sc = Ok m ->
  fst (extract_mesh (skipped ++ sc :: rest) resolution threshold w) = Ok (Some [m]).
Proof.
  intros Hskipped Hm. unfold extract_mesh. rewrite extract_mesh_with_run.
  rewrite <- started_helper_after_setup in Hskipped, Hm.
  set (w1 := snd (set_marching_cubes_resolution resolution (started w))) in *.
  rewrite (extract_loop_skips _ _ _ _ _ Hskipped).
  rewrite <- (add_log_helper w1
                (flat_map (item_records (isosurface_helper w1) threshold) skipped)) in Hm.
  now rewrite (extract_loop_returns _ _ _ _ _ _ Hm).
Qed.

(** C3, as the code has it.  The loop returns at the first scene code that
    passes all four stages: the scene codes before it, each failing a
    stage, are processed and skipped; the scene codes after it are never
    processed (the call is the same as on the batch cut after it), and the
    result is the one-mesh list of that scene code.  With no scene code
    skipped this is the batch whose first scene code passes: only it is
    processed. *)
Theorem loop_returns_at_first_mesh (resolution : Z) (threshold : Scalar) (w : World C)
    (skipped : list SceneCode) (sc : SceneCode) (rest : list SceneCode) (m : Mesh) :
  Forall (fun c => exists e,
            build_mesh (helper_after_setup resolution w) threshold c = Raise e) skipped ->
  build_mesh (helper_after_setup resolution w) threshold sc = Ok m ->
  extract_mesh (skipped ++ sc :: rest) resolution threshold w =
    extract_mesh (skipped ++ [sc]) resolution threshold w /\
  fst (extract_mesh (skipped ++ sc :: rest) resolution threshold w) = Ok (Some [m]) /\
  scene_codes_processed (log (snd (extract_mesh (skipped ++ sc :: rest) resolution threshold w))) =
    (scene_codes_processed (log w) + List.length skipped + 1)%nat.
Proof.
  intros Hskipped Hm. unfold extract_mesh. rewrite !extract_mesh_with_run.
  rewrite <- started_helper_after_setup in Hskipped, Hm.
  pose proof (setup_processes_nothing resolution (started w)) as Hcount.
  set (w1 := snd (set_marching_cubes_resolution resolution (started w))) in *.
  rewrite !(extract_loop_skips _ _ _ _ _ Hskipped).
  rewrite <- (add_log_helper w1
                (flat_map (item_records (isosurface_helper w1) threshold) skipped)) in Hm.
  rewrite !(extract_loop_returns _ _ _ _ _ _ Hm).
  repeat split.
  cbn [snd add_log log]. rewrite !scene_codes_processed_app.
  rewrite skipped_records_processed, item_records_processed, Hcount.
  unfold started. cbn [add_log log]. rewrite scene_codes_processed_app. cbn. lia.
Qed.

(** C4. In a batch of two scene codes where one fails at the density query
    and the other passes all stages, in either order, [extract_mesh]
    returns the list holding exactly the mesh of the scene code that
    passes; the failing scene code has no mesh.  And a scene code that
    fails at any of the four stages is given up alone: the loop goes on
    with the next scene code, the meshes built so far untouched and only
    the log extended. *)
Theorem failure_is_isolated (resolution : Z) (threshold : Scalar) (w : World C)
    (bad good : SceneCode) (e : exn) (m : Mesh) :
  query_density (helper_after_setup resolution w) bad = Raise e ->
  build_mesh (helper_after_setup resolution w) threshold good = Ok m ->
  fst (extract_mesh [bad; good] resolution threshold w) = Ok (Some [m]) /\
  fst (extract_mesh [good; bad] resolution threshold w) = Ok (Some [m]) /\
  build_mesh (helper_after_setup resolution w) threshold bad = Raise e /\
  forall (sc : SceneCode) (rest : list SceneCode) (meshes : list Mesh)
         (w' : World C) (e' : exn),
    stage_failure (isosurface_helper w') threshold sc e' ->
    extract_loop threshold (sc :: rest) meshes w' =
      extract_loop threshold rest meshes
        (add_log w' (item_records (isosurface_helper w') threshold sc)).
Proof.
  intros Hbad Hgood.
  assert (Hbad' : build_mesh (helper_after_setup resolution w) threshold bad = Raise e).
  { apply stage_failure_build_mesh. now left. }
  split; [| split; [| split]].
  - apply (first_mesh_is_returned resolution threshold w [bad] good [] m);
      [| exact Hgood].
    constructor; [now exists e | constructor].
  - apply (first_mesh_is_returned resolution threshold w [] good [bad] m);
      [constructor | exact Hgood].
  - exact Hbad'.
  - intros sc rest meshes w' e' Hfail.
    apply extract_loop_continues with (e := e').
    now apply stage_failure_build_mesh.
Qed.

(** C6. Every mesh that [extract_mesh] returns comes from one scene code
    of the batch by the calls of [mesh_dataflow], with the [resolution]
    helper in place after the setup and the given [threshold]: the density
    is queried at the helper's grid vertices rescaled from the helper's
    [points_range] to [(-radius, radius)]; the helper is called on
    [-(density - threshold)]; the vertices it returns are rescaled from
    [points_range] to [(-radius, radius)], and it is these rescaled
    vertices that go to the color query and into the mesh.  Conversely a
    first scene code for which these calls return gives the result. *)
Theorem extract_mesh_dataflow (resolution : Z) (threshold : Scalar) (w : World C) :
  (forall (scs : list SceneCode) (ms : list Mesh),
     fst (extract_mesh scs resolution threshold w) = Ok (Some ms) ->
     exists sc hp m,
       In sc scs /\ helper_after_setup resolution w = Some hp /\
       mesh_dataflow hp threshold sc m /\ ms = [m]) /\
  (forall (sc : SceneCode) (rest : list SceneCode) (hp : MarchingCubeHelperT) (m : Mesh),
     helper_after_setup resolution w = Some hp ->
     mesh_dataflow hp threshold sc m ->
     fst (extract_mesh (sc :: rest) resolution threshold w) = Ok (Some [m])).
Proof.
  split.
  - intros scs ms. unfold extract_mesh. rewrite extract_mesh_with_run. intros Hrun.
    destruct (extract_loop_yields _ _ _ _ _ Hrun) as (sc & m & Hin & Hm & ->).
    rewrite started_helper_after_setup in Hm.
    destruct (helper_after_setup resolution w) as [hp |] eqn:Hhp.
    + exists sc, hp, m. repeat split; [exact Hin |].
      now apply build_mesh_dataflow.
    + rewrite build_mesh_without_helper in Hm. discriminate.
  - intros sc rest hp m Hhp Hflow.
    apply (first_mesh_is_returned resolution threshold w [] sc rest m);
      [constructor |].
    rewrite Hhp. now apply build_mesh_dataflow.
Qed.

(** ** Output conversion of [render] *)

Lemma render_views_unknown_type (return_type : string) (sc : SceneCode)
    (rays_o rays_d : list Rays) (views : list nat) (outs : list Output) :
  (forall image, process_output return_type image = Raise NotImplementedError) ->
  render_views return_type sc rays_o rays_d views = Ok outs ->
  outs = [].
Proof.
  intros Hraise. destruct views as [| i views]; cbn [render_views].
  - now intros [= <-].
  - destruct (getitem rays_o i) as [o | e]; cbn [rbind]; [| discriminate].
    destruct (getitem rays_d i) as [d | e]; cbn [rbind]; [| discriminate].
    destruct (renderer decoder sc o d) as [image | e]; cbn [rbind]; [| discriminate].
    rewrite Hraise. discriminate.
Qed.

Lemma render_scenes_unknown_type (return_type : string) (rays_o rays_d : list Rays)
    (n_views : Z) (scene_codes : list SceneCode) (images : list (list Output)) :
  (forall image, process_output return_type image = Raise NotImplementedError) ->
  render_scenes return_type rays_o rays_d n_views scene_codes = Ok images ->
  Forall (fun images_ => images_ = []) images.
Proof.
  intros Hraise. revert images.
  induction scene_codes as [| sc scs IH]; intros images; cbn [render_scenes].
  - intros [= <-]. constructor.
  - destruct (render_views return_type sc rays_o rays_d (range n_views))
      as [images_ | e] eqn:Hviews; cbn [rbind]; [| discriminate].
    destruct (render_scenes return_type rays_o rays_d n_views scs)
      as [images' | e]; cbn [rbind]; [| discriminate].
    intros [= <-]. constructor.
    + exact (render_views_unknown_type _ _ _ _ _ _ Hraise Hviews).
    + now apply IH.
Qed.

(** C9. For a [return_type] other than "pt", "np" and "pil",
    [process_output] raises [NotImplementedError] on every image; so the
    first image [render] obtains from the renderer makes the call raise
    that error, and a call of [render] that returns has converted no image
    at all (every row of its result is empty). *)
Theorem unknown_return_type_raises (return_type : string) :
  return_type <> "pt" -> return_type <> "np" -> return_type <> "pil" ->
  (forall image, process_output return_type image = Raise NotImplementedError) /\
  (forall (sc : SceneCode) (rays_o rays_d : list Rays) (i : nat) (views : list nat)
          (o d : Rays) (image : list float32),
     getitem rays_o i = Ok o -> getitem rays_d i = Ok d ->
     renderer decoder sc o d = Ok image ->
     render_views return_type sc rays_o rays_d (i :: views) = Raise NotImplementedError) /\
  (forall (scene_codes : list SceneCode) (n_views : Z)
          (elevation_deg camera_distance fovy_deg : Scalar) (height width : Z)
          (images : list (list Output)),
     render scene_codes n_views elevation_deg camera_distance fovy_deg height width
            return_type = Ok images ->
     Forall (fun images_ => images_ = []) images).
Proof.
  intros Hpt Hnp Hpil.
  assert (Hraise : forall image, process_output return_type image = Raise NotImplementedError).
  { intros image. unfold process_output.
    apply String.eqb_neq in Hpt, Hnp, Hpil. now rewrite Hpt, Hnp, Hpil. }
  split; [exact Hraise | split].
  - intros sc rays_o rays_d i views o d image Ho Hd Himage.
    cbn [render_views]. rewrite Ho, Hd. cbn [rbind]. rewrite Himage. cbn [rbind].
    now rewrite Hraise.
  - intros scene_codes n_views elevation_deg camera_distance fovy_deg height width images.
    unfold render.
    destruct (get_spherical_cameras n_views elevation_deg camera_distance fovy_deg height width)
      as [rays | e]; cbn [rbind]; [| discriminate].
    destruct (rays_to (fst rays)) as [rays_o | e]; cbn [rbind]; [| discriminate].
    destruct (rays_to (snd rays)) as [rays_d | e]; cbn [rbind]; [| discriminate].
    now apply render_scenes_unknown_type.
Qed.

Lemma trunc_mantissa_integer_part (m : positive) (e : Z) :
  (0 <= e -> trunc_mantissa m e = Zpos m * 2 ^ e)%Z /\
  (e < 0 -> trunc_mantissa m e * 2 ^ (- e) <= Zpos m < (trunc_mantissa m e + 1) * 2 ^ (- e))%Z.
Proof.
  destruct e as [| p | p]; cbn [trunc_mantissa]; split; try lia.
  - intros _. now rewrite Z.shiftl_mul_pow2 by lia.
  - intros _. rewrite Z.shiftr_div_pow2 by lia.
    change (- Zneg p)%Z with (Zpos p).
    assert (Hpow : (0 < 2 ^ Zpos p)%Z) by (apply Z.pow_pos_nonneg; lia).
    pose proof (Z.mul_div_le (Zpos m) (2 ^ Zpos p) Hpow) as Hle.
    pose proof (Z.mul_succ_div_gt (Zpos m) (2 ^ Zpos p) Hpow) as Hgt.
    unfold Z.succ in Hgt. rewrite !(Z.mul_comm _ (2 ^ Zpos p)). split; assumption.
Qed.

(** C10, as the code has it.  With "pil" every pixel [x] becomes
    [astype_uint8 (x * 255.0)]: the float32 product with its fractional
    part dropped (no rounding), whenever that integer part is within
    0..255.  A tensor of zeros gives pixels that are all 0 and a tensor of
    ones gives pixels that are all 255. *)
Theorem pil_conversion_truncates :
  (forall image,
     process_output "pil" image =
       Ok (OutPil (map (fun x => astype_uint8 (f32_mul x f255)) image))) /\
  (forall (x : float32) (t : Z),
     f32_trunc (f32_mul x f255) = Some t -> (0 <= t <= 255)%Z ->
     astype_uint8 (f32_mul x f255) = t) /\
  (forall (s : bool) (m : positive) (e : Z),
     (e < 0)%Z ->
     exists t, f32_trunc (S754_finite s m e) = Some (if s then (- t)%Z else t) /\
               (t * 2 ^ (- e) <= Zpos m < (t + 1) * 2 ^ (- e))%Z) /\
  (forall (n : nat) (s : bool),
     process_output "pil" (repeat (S754_zero s) n) = Ok (OutPil (repeat 0%Z n))) /\
  (forall n : nat,
     process_output "pil" (repeat f32_one n) = Ok (OutPil (repeat 255%Z n))).
Proof.
  split; [| split; [| split; [| split]]].
  - intros image. reflexivity.
  - intros x t Ht Hrange. unfold astype_uint8. rewrite Ht.
    destruct (Z.leb_spec 0 t); [| lia]. destruct (Z.leb_spec t 255); [| lia]. reflexivity.
  - intros s m e He. exists (trunc_mantissa m e). split; [reflexivity |].
    now apply trunc_mantissa_integer_part.
  - intros n s. unfold process_output. cbn [String.eqb]. cbn. do 2 f_equal.
    induction n as [| n IH]; [reflexivity |].
    cbn [repeat map]. now rewrite IH.
  - intros n. unfold process_output. cbn. do 2 f_equal.
    induction n as [| n IH]; [reflexivity |].
    cbn [repeat map]. now rewrite IH.
Qed.

End Facts.

(** * Runs on the bench *)

Section BenchRuns.

Import Bench.

Local Open Scope string_scope.
Local Open Scope list_scope.
Local Open Scope Z_scope.

(** C1 at a failing input.  The instance has a helper of resolution 2
    cached and the construction at resolution 1000 raises [MemoryError].
    [extract_mesh] does not abort: the error is logged inside
    [set_marching_cubes_resolution], the loop runs with the stale helper and
    the call returns a mesh.  On a fresh instance (no helper) the loop still
    runs through every scene code, each failing at the density query, and
    [None] only comes from reaching the end of the method. *)
Theorem setup_failure_does_not_abort :
  MarchingCubeHelper 1000 = Raise MemoryError /\
  fst (extract_mesh [3] 1000 25 cached2) = Ok (Some [mesh3]) /\
  scene_codes_processed (log (snd (extract_mesh [3] 1000 25 cached2))) = 1%nat /\
  fst (extract_mesh [3; 4] 1000 25 fresh) = Ok None /\
  scene_codes_processed (log (snd (extract_mesh [3; 4] 1000 25 fresh))) = 2%nat.
Proof.
  repeat split; vm_compute; reflexivity.
Qed.

(** C2 at failing inputs.  The setup succeeds (a helper of resolution 2 is
    stored), yet [extract_mesh] returns [None] and not a list when the
    only scene code fails and when the batch is empty; and of two scene
    codes that both have a mesh only the first mesh is returned. *)
Theorem successful_setup_may_return_none :
  helper_after_setup 2 fresh = Some 2 /\
  fst (extract_mesh [-1] 2 25 fresh) = Ok None /\
  fst (extract_mesh [] 2 25 fresh) = Ok None /\
  build_mesh (Some 2) 25 3 = Ok mesh3 /\
  build_mesh (Some 2) 25 4 = Ok mesh4 /\
  fst (extract_mesh [3; 4] 2 25 fresh) = Ok (Some [mesh3]).
Proof.
  repeat split; vm_compute; reflexivity.
Qed.

(** C3 fails as stated: in the batch [-1; 3] the first scene code fails at
    the density query, the loop goes on, the second scene code is processed
    and it is its mesh that is returned. *)
Lemma second_scene_code_is_processed :
  fst (extract_mesh [-1; 3] 2 25 fresh) = Ok (Some [mesh3]) /\
  build_mesh (helper_after_setup 2 fresh) 25 (-1) = Raise query_failed /\
  scene_codes_processed (log (snd (extract_mesh [-1; 3] 2 25 fresh))) = 2%nat /\
  extract_mesh [-1; 3] 2 25 fresh <> extract_mesh [-1] 2 25 fresh.
Proof.
  repeat split; try (vm_compute; reflexivity).
  vm_compute. discriminate.
Qed.

Lemma loop_returns_at_first_mesh_witness :
  Forall (fun c => exists e, build_mesh (helper_after_setup 2 fresh) 25 c = Raise e) [-1] /\
  build_mesh (helper_after_setup 2 fresh) 25 3 = Ok mesh3 /\
  extract_mesh ([-1] ++ 3 :: [4]) 2 25 fresh = extract_mesh ([-1] ++ [3]) 2 25 fresh /\
  fst (extract_mesh ([-1] ++ 3 :: [4]) 2 25 fresh) = Ok (Some [mesh3]) /\
  scene_codes_processed (log (snd (extract_mesh ([-1] ++ 3 :: [4]) 2 25 fresh))) = 2%nat.
Proof.
  assert (H1 : Forall (fun c => exists e,
                         build_mesh (helper_after_setup 2 fresh) 25 c = Raise e) [-1]).
  { constructor; [exists query_failed; reflexivity | constructor]. }
  assert (H2 : build_mesh (helper_after_setup 2 fresh) 25 3 = Ok mesh3) by reflexivity.
  split; [exact H1 | split; [exact H2 |]].
  exact (loop_returns_at_first_mesh (C := collaborators) 2 25 fresh [-1] 3 [4] mesh3 H1 H2).
Defined.

Lemma failure_is_isolated_witness :
  query_density (helper_after_setup 2 fresh) (-1) = Raise query_failed /\
  build_mesh (helper_after_setup 2 fresh) 25 3 = Ok mesh3 /\
  fst (extract_mesh [-1; 3] 2 25 fresh) = Ok (Some [mesh3]) /\
  fst (extract_mesh [3; -1] 2 25 fresh) = Ok (Some [mesh3]) /\
  build_mesh (helper_after_setup 2 fresh) 25 (-1) = Raise query_failed /\
  (stage_failure (isosurface_helper cached2) 25 (-1) query_failed /\
   extract_loop 25 (-1 :: [3]) [] cached2 =
     extract_loop 25 [3] [] (add_log cached2 (item_records (isosurface_helper cached2) 25 (-1)))).
Proof.
  assert (H1 : query_density (helper_after_setup 2 fresh) (-1) = Raise query_failed)
    by reflexivity.
  assert (H2 : build_mesh (helper_after_setup 2 fresh) 25 3 = Ok mesh3) by reflexivity.
  assert (H3 : stage_failure (isosurface_helper cached2) 25 (-1) query_failed)
    by (left; reflexivity).
  destruct (failure_is_isolated (C := collaborators) 2 25 fresh (-1) 3 query_failed mesh3 H1 H2)
    as (Ha & Hb & Hc & Hd).
  exact (conj H1 (conj H2 (conj Ha (conj Hb (conj Hc
           (conj H3 (Hd (-1) [3] [] cached2 query_failed H3))))))).
Defined.

Lemma extract_mesh_dataflow_witness :
  fst (extract_mesh [3] 2 25 fresh) = Ok (Some [mesh3]) /\
  helper_after_setup 2 fresh = Some 2 /\
  mesh_dataflow 2 25 3 mesh3 /\
  (exists sc hp m,
     In sc [3] /\ helper_after_setup 2 fresh = Some hp /\
     mesh_dataflow hp 25 sc m /\ [mesh3] = [m]) /\
  fst (extract_mesh (3 :: [4]) 2 25 fresh) = Ok (Some [mesh3]).
Proof.
  assert (H1 : fst (extract_mesh [3] 2 25 fresh) = Ok (Some [mesh3])) by reflexivity.
  assert (H2 : helper_after_setup 2 fresh = Some 2) by reflexivity.
  assert (H3 : mesh_dataflow 2 25 3 mesh3).
  { exists [0; 1], [0; 1], [-1; 1], (mkTriplaneOutput [2; 4] [3; 3]),
      ([23; 21], [0; 1]), [45; 41], (mkTriplaneOutput [48; 44] [3; 3]).
    repeat split; reflexivity. }
  destruct (extract_mesh_dataflow (C := collaborators) 2 25 fresh) as [Hfrom Hto].
  exact (conj H1 (conj H2 (conj H3 (conj (Hfrom [3] [mesh3] H1) (Hto 3 [4] 2 mesh3 H2 H3))))).
Defined.

Lemma rebuild_failure_keeps_helper_witness :
  MarchingCubeHelper 1000 = Raise MemoryError /\
  fst (set_marching_cubes_resolution 1000 cached2) = Ok tt /\
  isosurface_helper (snd (set_marching_cubes_resolution 1000 cached2)) = Some 2 /\
  (resolution_is_set (isosurface_helper cached2) 1000 = false /\
   log (snd (set_marching_cubes_resolution 1000 cached2)) =
     [info "Setting marching cubes resolution...";
      error "Failed to set marching cubes resolution: %s" MemoryError]).
Proof.
  assert (H1 : MarchingCubeHelper 1000 = Raise MemoryError) by reflexivity.
  assert (H2 : resolution_is_set (isosurface_helper cached2) 1000 = false) by reflexivity.
  destruct (rebuild_failure_keeps_helper (C := collaborators) 1000 cached2 MemoryError H1)
    as (Ha & Hb & Hc).
  exact (conj H1 (conj Ha (conj Hb (conj H2 (Hc H2))))).
Defined.

(** C8 fails as stated when a build raises.  With a helper of resolution 2
    cached, a call with resolution 1000 does not replace it: the build
    raises and the old helper stays.  On a fresh instance two calls in a
    row with resolution 1000 both attempt the build: the second call is no
    cache hit, it logs the failed build a second time. *)
Lemma failed_build_is_retried_and_replaces_nothing :
  isosurface_helper cached2 = Some 2 /\ helper_resolution 2 = 2 /\ 1000 <> 2 /\
  isosurface_helper (snd (set_marching_cubes_resolution 1000 cached2)) = Some 2 /\
  (let w1 := snd (set_marching_cubes_resolution 1000 fresh) in
   set_marching_cubes_resolution 1000 w1 <>
     (Ok tt, add_log w1 [info "Setting marching cubes resolution...";
                         info "Marching cubes resolution is already set to the desired value."]) /\
   set_marching_cubes_resolution 1000 w1 =
     (Ok tt, add_log w1 [info "Setting marching cubes resolution...";
                         error "Failed to set marching cubes resolution: %s" MemoryError])).
Proof.
  repeat split; try (vm_compute; reflexivity); try lia.
  vm_compute. discriminate.
Qed.

Lemma resolution_cache_witness :
  (resolution_is_set (isosurface_helper cached2) 2 = true \/
   (exists hp, MarchingCubeHelper 2 = Ok hp /\ helper_resolution hp = 2)) /\
  set_marching_cubes_resolution 2 (snd (set_marching_cubes_resolution 2 cached2)) =
    (Ok tt, add_log (snd (set_marching_cubes_resolution 2 cached2))
              [info "Setting marching cubes resolution...";
               info "Marching cubes resolution is already set to the desired value."]) /\
  isosurface_helper cached2 = Some 2 /\ helper_resolution 2 = 2 /\ 3 <> 2 /\
  MarchingCubeHelper 3 = Ok 3 /\
  set_marching_cubes_resolution 3 cached2 =
    (Ok tt, mkWorld (Some 3)
              (log cached2 ++ [info "Setting marching cubes resolution...";
                               info "Marching cubes resolution set successfully."])).
Proof.
  assert (H1 : resolution_is_set (isosurface_helper cached2) 2 = true \/
               (exists hp, MarchingCubeHelper 2 = Ok hp /\ helper_resolution hp = 2))
    by (left; reflexivity).
  assert (H2 : isosurface_helper cached2 = Some 2) by reflexivity.
  assert (H3 : helper_resolution 2 = 2) by reflexivity.
  assert (H4 : 3 <> 2) by lia.
  assert (H5 : MarchingCubeHelper 3 = Ok 3) by reflexivity.
  destruct (resolution_cache (C := collaborators) 2 cached2) as [Hhit Hmiss].
  exact (conj H1 (conj (Hhit H1) (conj H2 (conj H3 (conj H4
           (conj H5 (Hmiss 3 2 3 H2 H3 H4 H5))))))).
Defined.

Lemma unknown_return_type_raises_witness :
  "jpeg" <> "pt" /\ "jpeg" <> "np" /\ "jpeg" <> "pil" /\
  process_output "jpeg" [f32_zero; f32_half; f32_one] = Raise NotImplementedError /\
  (getitem [7; 8] 0%nat = Ok 7 /\ getitem [5; 6] 0%nat = Ok 5 /\
   renderer decoder 3 7 5 = Ok [f32_zero; f32_half; f32_one] /\
   render_views "jpeg" 3 [7; 8] [5; 6] [0%nat; 1%nat] = Raise NotImplementedError) /\
  (render [1; 2] 0 0 0 0 4 4 "jpeg" = Ok [[]; []] /\
   Forall (fun images_ : list Output => images_ = []) [[]; []]).
Proof.
  assert (H1 : "jpeg" <> "pt") by discriminate.
  assert (H2 : "jpeg" <> "np") by discriminate.
  assert (H3 : "jpeg" <> "pil") by discriminate.
  assert (H4 : getitem [7; 8] 0%nat = Ok 7) by reflexivity.
  assert (H5 : getitem [5; 6] 0%nat = Ok 5) by reflexivity.
  assert (H6 : renderer decoder 3 7 5 = Ok [f32_zero; f32_half; f32_one]) by reflexivity.
  assert (H7 : render [1; 2] 0 0 0 0 4 4 "jpeg" = Ok [[]; []]) by reflexivity.
  destruct (unknown_return_type_raises (C := collaborators) "jpeg" H1 H2 H3)
    as (Ha & Hb & Hc).
  exact (conj H1 (conj H2 (conj H3 (conj (Ha [f32_zero; f32_half; f32_one])
           (conj (conj H4 (conj H5 (conj H6
                    (Hb 3 [7; 8] [5; 6] 0%nat [1%nat] 7 5 _ H4 H5 H6))))
                 (conj H7 (Hc [1; 2] 0 0 0 0 4 4 [[]; []] H7))))))).
Defined.

(** C10 fails as stated: the pixel 0.5 has the product 127.5, which the
    code turns into 127, while [round(x*255)] is 128. *)
Lemma half_is_truncated_not_rounded :
  f32_mul f32_half f255 = S754_finite false 16711680 (-17) /\
  process_output "pil" [f32_half] = Ok (OutPil [127]) /\
  pil_pixel_per_spec f32_half = Some 128 /\
  process_output "pil" [f32_half] <> Ok (OutPil [128]).
Proof.
  repeat split; try (vm_compute; reflexivity).
  vm_compute. discriminate.
Qed.

Lemma pil_conversion_truncates_witness :
  process_output "pil" [f32_zero; f32_half; f32_one] = Ok (OutPil [0; 127; 255]) /\
  (f32_trunc (f32_mul f32_half f255) = Some 127 /\ 0 <= 127 <= 255 /\
   astype_uint8 (f32_mul f32_half f255) = 127) /\
  (-17 < 0 /\
   exists t, f32_trunc (S754_finite false 16711680 (-17)) = Some t /\
             t * 2 ^ 17 <= 16711680 < (t + 1) * 2 ^ 17) /\
  process_output "pil" (repeat f32_zero 4) = Ok (OutPil (repeat 0 4)) /\
  process_output "pil" (repeat f32_one 4) = Ok (OutPil (repeat 255 4)).
Proof.
  assert (H1 : f32_trunc (f32_mul f32_half f255) = Some 127) by reflexivity.
  assert (H2 : 0 <= 127 <= 255) by lia.
  assert (H3 : -17 < 0) by lia.
  destruct (pil_conversion_truncates (C := collaborators)) as (Ha & Hb & Hc & Hd & He).
  exact (conj (Ha [f32_zero; f32_half; f32_one])
           (conj (conj H1 (conj H2 (Hb f32_half 127 H1 H2)))
              (conj (conj H3 (Hc false 16711680%positive (-17) H3))
                 (conj (Hd 4%nat false) (He 4%nat))))).
Defined.

End BenchRuns.

(** * Further properties of the three methods *)

Section MoreFacts.

Context {C : Collaborators}.

Unset Implicit Arguments.

Local Open Scope string_scope.
Local Open Scope list_scope.

(** ** Counting records *)

Lemma errors_logged_app (l1 l2 : list LogRecord) :
  errors_logged (l1 ++ l2) = (errors_logged l1 + errors_logged l2)%nat.
Proof.
  unfold errors_logged. now rewrite filter_app, length_app.
Qed.

Lemma logged_with_app (message : string) (l1 l2 : list LogRecord) :
  logged_with message (l1 ++ l2) = (logged_with message l1 + logged_with message l2)%nat.
Proof.
  unfold logged_with. now rewrite filter_app, length_app.
Qed.

Lemma item_records_errors (helper : option MarchingCubeHelperT) (threshold : Scalar)
    (sc : SceneCode) :
  errors_logged (item_records helper threshold sc) =
    match build_mesh helper threshold sc with
    | Ok _ => 0%nat
    | Raise _ => 1%nat
    end.
Proof.
  unfold item_records, build_mesh.
  destruct (query_density helper sc) as [density | e]; [| reflexivity].
  cbn [rbind].
  destruct (isosurface helper density threshold) as [[v_pos t_pos_idx] | e]; [| reflexivity].
  cbn [rbind fst snd].
  destruct (query_color v_pos sc) as [color_ | e]; [| reflexivity].
  cbn [rbind].
  destruct (create_mesh v_pos t_pos_idx color_) as [mesh | e]; reflexivity.
Qed.

Lemma item_records_outer_handler (helper : option MarchingCubeHelperT) (threshold : Scalar)
    (sc : SceneCode) :
  logged_with "Failed to process scene code: %s" (item_records helper threshold sc) = 0%nat.
Proof.
  unfold item_records.
  destruct (query_density helper sc) as [density | e]; [| reflexivity].
  destruct (isosurface helper density threshold) as [[v_pos t_pos_idx] | e]; [| reflexivity].
  destruct (query_color v_pos sc) as [color_ | e]; [| reflexivity].
  destruct (create_mesh v_pos t_pos_idx color_) as [mesh | e]; reflexivity.
Qed.

Lemma failed_records_errors (helper : option MarchingCubeHelperT) (threshold : Scalar)
    (scs : list SceneCode) :
  Forall (fun sc => exists e, build_mesh helper threshold sc = Raise e) scs ->
  errors_logged (flat_map (item_records helper threshold) scs) = List.length scs.
Proof.
  induction 1 as [| sc scs [e He] _ IH]; [reflexivity |].
  cbn [flat_map List.length].
  now rewrite errors_logged_app, item_records_errors, He, IH.
Qed.

(** ** The world after the setup and after the loop *)

Lemma setup_log (resolution : Z) (w : World C) :
  log (snd (set_marching_cubes_resolution resolution w)) =
    log w ++ setup_records (isosurface_helper w) resolution.
Proof.
  unfold setup_records.
  destruct (resolution_is_set (isosurface_helper w) resolution) eqn:Hset.
  - now rewrite setup_cache_hit.
  - destruct (MarchingCubeHelper resolution) as [hp | e] eqn:Hnew.
    + now rewrite (setup_rebuilt _ _ _ Hset Hnew).
    + now rewrite (setup_rebuild_raised _ _ _ Hset Hnew).
Qed.

Lemma helper_after_setup_cases (resolution : Z) (w : World C) :
  helper_after_setup resolution w =
    if resolution_is_set (isosurface_helper w) resolution then isosurface_helper w
    else match MarchingCubeHelper resolution with
         | Ok hp => Some hp
         | Raise _ => isosurface_helper w
         end.
Proof.
  unfold helper_after_setup.
  destruct (resolution_is_set (isosurface_helper w) resolution) eqn:Hset.
  - now rewrite setup_cache_hit.
  - destruct (MarchingCubeHelper resolution) as [hp | e] eqn:Hnew.
    + now rewrite (setup_rebuilt _ _ _ Hset Hnew).
    + now rewrite (setup_rebuild_raised _ _ _ Hset Hnew).
Qed.

Lemma extract_loop_helper (threshold : Scalar) (scs : list SceneCode) (meshes : list Mesh)
    (w : World C) :
  isosurface_helper (snd (extract_loop threshold scs meshes w)) = isosurface_helper w.
Proof.
  revert w. induction scs as [| sc scs IH]; intros w; [reflexivity |].
  rewrite extract_loop_step.
  destruct (build_mesh (isosurface_helper w) threshold sc) as [m | e]; [reflexivity |].
  now rewrite IH.
Qed.

Lemma extract_loop_log (threshold : Scalar) (scs : list SceneCode) (meshes : list Mesh)
    (w : World C) :
  log (snd (extract_loop threshold scs meshes w)) =
    log w ++ flat_map (item_records (isosurface_helper w) threshold)
                      (attempted (isosurface_helper w) threshold scs).
Proof.
  revert w. induction scs as [| sc scs IH]; intros w.
  - cbn. now rewrite app_nil_r.
  - rewrite extract_loop_step. cbn [attempted flat_map].
    destruct (build_mesh (isosurface_helper w) threshold sc) as [m | e].
    + cbn. now rewrite app_nil_r.
    + rewrite IH, add_log_helper. cbn [add_log log]. now rewrite app_assoc.
Qed.

Lemma extract_mesh_world_helper (scs : list SceneCode) (resolution : Z) (threshold : Scalar)
    (w : World C) :
  isosurface_helper (snd (extract_mesh scs resolution threshold w)) =
    helper_after_setup resolution w.
Proof.
  unfold extract_mesh. rewrite extract_mesh_with_run, extract_loop_helper.
  apply started_helper_after_setup.
Qed.

Lemma extract_mesh_log (scs : list SceneCode) (resolution : Z) (threshold : Scalar)
    (w : World C) :
  log (snd (extract_mesh scs resolution threshold w)) =
    log w ++ info "Starting mesh extraction..." ::
      setup_records (isosurface_helper w) resolution ++
      flat_map (item_records (helper_after_setup resolution w) threshold)
               (attempted (helper_after_setup resolution w) threshold scs).
Proof.
  unfold extract_mesh. rewrite extract_mesh_with_run, extract_loop_log.
  rewrite started_helper_after_setup, setup_log.
  unfold started. cbn [add_log log isosurface_helper].
  rewrite <- !app_assoc. reflexivity.
Qed.

Lemma extract_mesh_fst (scs : list SceneCode) (resolution : Z) (threshold : Scalar)
    (w : World C) :
  fst (extract_mesh scs resolution threshold w) =
    Ok (option_map (fun m => [m]) (first_mesh (helper_after_setup resolution w) threshold scs)).
Proof.
  unfold extract_mesh. rewrite extract_mesh_with_run, extract_loop_result.
  now rewrite started_helper_after_setup.
Qed.

Lemma attempted_all_failed (helper : option MarchingCubeHelperT) (threshold : Scalar)
    (scs : list SceneCode) :
  Forall (fun sc => exists e, build_mesh helper threshold sc = Raise e) scs ->
  attempted helper threshold scs = scs /\ first_mesh helper threshold scs = None.
Proof.
  induction 1 as [| sc scs [e He] _ [IH1 IH2]]; [now split |].
  cbn [attempted first_mesh]. now rewrite He, IH1, IH2.
Qed.

(** ** What [extract_mesh] returns and leaves behind *)

(** X1. [extract_mesh] never raises.  It returns the one-mesh list of the
    first scene code of the batch that passes all four stages with the
    helper stored after the setup, and [None] exactly when every scene code
    of the batch fails some stage (the empty batch included). *)
Theorem extract_mesh_returns_first_mesh (scs : list SceneCode) (resolution : Z)
    (threshold : Scalar) (w : World C) :
  fst (extract_mesh scs resolution threshold w) =
    Ok (option_map (fun m => [m])
          (first_mesh (helper_after_setup resolution w) threshold scs)) /\
  (fst (extract_mesh scs resolution threshold w) = Ok None <->
   Forall (fun sc => exists e,
             build_mesh (helper_after_setup resolution w) threshold sc = Raise e) scs).
Proof.
  split; [apply extract_mesh_fst |].
  rewrite extract_mesh_fst. generalize (helper_after_setup resolution w) as h. intros h.
  split.
  - induction scs as [| sc scs IH]; [constructor |].
    cbn [first_mesh]. destruct (build_mesh h threshold sc) as [m | e] eqn:Hm.
    + cbn. discriminate.
    + intros Hrest. constructor; [now exists e | now apply IH].
  - intros Hall. now rewrite (proj2 (attempted_all_failed h threshold scs Hall)).
Qed.

(** X2. The loop of [extract_mesh] never touches [self.isosurface_helper]:
    after the call the instance holds the helper that the setup call alone
    would leave, whatever the batch and whatever fails in it. *)
Theorem extract_mesh_only_setup_changes_helper (scs : list SceneCode) (resolution : Z)
    (threshold : Scalar) (w : World C) :
  isosurface_helper (snd (extract_mesh scs resolution threshold w)) =
    isosurface_helper (snd (set_marching_cubes_resolution resolution w)) /\
  forall (meshes : list Mesh),
    isosurface_helper (snd (extract_loop threshold scs meshes w)) = isosurface_helper w.
Proof.
  split.
  - apply extract_mesh_world_helper.
  - intros meshes. apply extract_loop_helper.
Qed.

(** X3. When every scene code of the batch fails some stage, [extract_mesh]
    returns [None]; it has gone through all of them, and beyond what the
    setup call logs each scene code accounts for exactly one record at error
    level. *)
Theorem all_failed_batch (scs : list SceneCode) (resolution : Z) (threshold : Scalar)
    (w : World C) :
  Forall (fun sc => exists e,
            build_mesh (helper_after_setup resolution w) threshold sc = Raise e) scs ->
  fst (extract_mesh scs resolution threshold w) = Ok None /\
  scene_codes_processed (log (snd (extract_mesh scs resolution threshold w))) =
    (scene_codes_processed (log w) + List.length scs)%nat /\
  errors_logged (log (snd (extract_mesh scs resolution threshold w))) =
    (errors_logged (log (snd (set_marching_cubes_resolution resolution w))) +
     List.length scs)%nat.
Proof.
  intros Hall.
  destruct (attempted_all_failed _ _ _ Hall) as [Hatt Hnone].
  split; [| split].
  - now rewrite extract_mesh_fst, Hnone.
  - rewrite extract_mesh_log, Hatt.
    change (info "Starting mesh extraction..." :: ?l) with
      ([info "Starting mesh extraction..."] ++ l).
    rewrite !scene_codes_processed_app, skipped_records_processed.
    pose proof (setup_processes_nothing resolution w) as Hsetup.
    rewrite setup_log, scene_codes_processed_app in Hsetup.
    cbn [scene_codes_processed filter List.length msg info String.eqb Ascii.eqb Bool.eqb] in *.
    lia.
  - rewrite extract_mesh_log, Hatt, setup_log.
    change (info "Starting mesh extraction..." :: ?l) with
      ([info "Starting mesh extraction..."] ++ l).
    rewrite !errors_logged_app, (failed_records_errors _ _ _ Hall).
    cbn [errors_logged filter List.length is_error levelname info]. lia.
Qed.

(** X4. The handler of the outer [try] of the density stage is dead code:
    no call of [extract_mesh] ever logs 'Failed to process scene code: %s'. *)
Theorem outer_handler_never_logs (scs : list SceneCode) (resolution : Z)
    (threshold : Scalar) (w : World C) :
  logged_with "Failed to process scene code: %s"
    (log (snd (extract_mesh scs resolution threshold w))) =
  logged_with "Failed to process scene code: %s" (log w).
Proof.
  rewrite extract_mesh_log.
  change (info "Starting mesh extraction..." :: ?l) with
    ([info "Starting mesh extraction..."] ++ l).
  rewrite !logged_with_app.
  assert (Hsetup : logged_with "Failed to process scene code: %s"
                     (setup_records (isosurface_helper w) resolution) = 0%nat).
  { unfold setup_records.
    destruct (resolution_is_set (isosurface_helper w) resolution); [reflexivity |].
    destruct (MarchingCubeHelper resolution); reflexivity. }
  assert (Hitems : forall h l,
            logged_with "Failed to process scene code: %s"
              (flat_map (item_records h threshold) l) = 0%nat).
  { intros h l. induction l as [| sc l IH]; [reflexivity |].
    cbn [flat_map]. now rewrite logged_with_app, item_records_outer_handler, IH. }
  rewrite Hsetup, Hitems. cbn. lia.
Qed.

(** ** A build that raises *)

(** X5. On an instance without a helper, when the construction raises,
    [extract_mesh] still goes through every scene code of the batch: each
    one fails at the density query with the [AttributeError] of the missing
    helper, the call returns [None] and the instance still has no helper. *)
Theorem failed_first_build_fails_every_scene_code (scs : list SceneCode) (resolution : Z)
    (threshold : Scalar) (w : World C) (e : exn) :
  isosurface_helper w = None ->
  MarchingCubeHelper resolution = Raise e ->
  fst (extract_mesh scs resolution threshold w) = Ok None /\
  isosurface_helper (snd (extract_mesh scs resolution threshold w)) = None /\
  scene_codes_processed (log (snd (extract_mesh scs resolution threshold w))) =
    (scene_codes_processed (log w) + List.length scs)%nat /\
  logged_with "Failed to query triplane for density: %s"
    (log (snd (extract_mesh scs resolution threshold w))) =
    (logged_with "Failed to query triplane for density: %s" (log w) + List.length scs)%nat.
Proof.
  intros Hnone Hnew.
  assert (Hafter : helper_after_setup resolution w = None).
  { rewrite helper_after_setup_cases, Hnone, Hnew. reflexivity. }
  assert (Hall : Forall (fun sc => exists e',
                           build_mesh (helper_after_setup resolution w) threshold sc = Raise e')
                        scs).
  { rewrite Hafter. apply Forall_forall. intros sc _. eexists.
    apply build_mesh_without_helper. }
  destruct (attempted_all_failed _ _ _ Hall) as [Hatt Hfirst].
  split; [| split; [| split]].
  - now rewrite extract_mesh_fst, Hfirst.
  - now rewrite extract_mesh_world_helper.
  - rewrite extract_mesh_log, Hatt.
    change (info "Starting mesh extraction..." :: ?l) with
      ([info "Starting mesh extraction..."] ++ l).
    rewrite !scene_codes_processed_app, skipped_records_processed.
    unfold setup_records. rewrite Hnone, Hnew. cbn. lia.
  - rewrite extract_mesh_log, Hatt, Hafter.
    change (info "Starting mesh extraction..." :: ?l) with
      ([info "Starting mesh extraction..."] ++ l).
    rewrite !logged_with_app.
    unfold setup_records. rewrite Hnone, Hnew.
    assert (Hitems : logged_with "Failed to query triplane for density: %s"
                       (flat_map (item_records None threshold) scs) = List.length scs).
    { clear. induction scs as [| sc scs IH]; [reflexivity |].
      cbn [flat_map List.length]. rewrite logged_with_app, IH. reflexivity. }
    rewrite Hitems. cbn. lia.
Qed.

(** X6. When the construction raises while a helper of another resolution
    is cached, [extract_mesh] works with that stale helper: it returns what
    the batch gives with the old helper, and the old helper stays stored. *)
Theorem failed_rebuild_extracts_with_stale_helper (scs : list SceneCode) (resolution : Z)
    (threshold : Scalar) (w : World C) (hp : MarchingCubeHelperT) (e : exn) :
  isosurface_helper w = Some hp ->
  helper_resolution hp <> resolution ->
  MarchingCubeHelper resolution = Raise e ->
  fst (extract_mesh scs resolution threshold w) =
    Ok (option_map (fun m => [m]) (first_mesh (Some hp) threshold scs)) /\
  isosurface_helper (snd (extract_mesh scs resolution threshold w)) = Some hp /\
  In (error "Failed to set marching cubes resolution: %s" e)
     (log (snd (extract_mesh scs resolution threshold w))).
Proof.
  intros Hw Hres Hnew.
  assert (Hset : resolution_is_set (isosurface_helper w) resolution = false).
  { rewrite Hw. cbn. now apply Z.eqb_neq. }
  assert (Hafter : helper_after_setup resolution w = Some hp).
  { rewrite helper_after_setup_cases, Hset, Hnew. exact Hw. }
  split; [| split].
  - now rewrite extract_mesh_fst, Hafter.
  - now rewrite extract_mesh_world_helper.
  - rewrite extract_mesh_log. unfold setup_records. rewrite Hset, Hnew.
    apply in_or_app. right. right. right. left. reflexivity.
Qed.

(** X9. A scene code that fails is not skipped silently, and the log tells
    the stage: the records of its iteration hold no error record except the
    last one, which carries the message of the stage that failed and the
    exception raised there. *)
Theorem failed_stage_is_logged (threshold : Scalar) (sc : SceneCode) (meshes : list Mesh)
    (w : World C) (e : exn) :
  (query_density (isosurface_helper w) sc = Raise e ->
   exists l,
     log (snd (extract_loop threshold [sc] meshes w)) =
       log w ++ l ++ [error "Failed to query triplane for density: %s" e] /\
     errors_logged l = 0%nat) /\
  (forall density,
     query_density (isosurface_helper w) sc = Ok density ->
     isosurface (isosurface_helper w) density threshold = Raise e ->
     exists l,
       log (snd (extract_loop threshold [sc] meshes w)) =
         log w ++ l ++ [error "Failed to calculate v_pos and t_pos_idx: %s" e] /\
       errors_logged l = 0%nat) /\
  (forall density vt,
     query_density (isosurface_helper w) sc = Ok density ->
     isosurface (isosurface_helper w) density threshold = Ok vt ->
     query_color (fst vt) sc = Raise e ->
     exists l,
       log (snd (extract_loop threshold [sc] meshes w)) =
         log w ++ l ++ [error "Failed to query triplane for color: %s" e] /\
       errors_logged l = 0%nat) /\
  (forall density vt color_,
     query_density (isosurface_helper w) sc = Ok density ->
     isosurface (isosurface_helper w) density threshold = Ok vt ->
     query_color (fst vt) sc = Ok color_ ->
     create_mesh (fst vt) (snd vt) color_ = Raise e ->
     exists l,
       log (snd (extract_loop threshold [sc] meshes w)) =
         log w ++ l ++ [error "Failed to create and append mesh: %s" e] /\
       errors_logged l = 0%nat).
Proof.
  assert (Hrun : build_mesh (isosurface_helper w) threshold sc = Raise e ->
                 log (snd (extract_loop threshold [sc] meshes w)) =
                   log w ++ item_records (isosurface_helper w) threshold sc).
  { intros Hm. now rewrite extract_loop_step, Hm. }
  split; [| split; [| split]].
  - intros Hd.
    rewrite Hrun by (apply stage_failure_build_mesh; now left).
    unfold item_records. rewrite Hd.
    exists [info "Processing scene code..."; info "Querying triplane for density..."].
    split; reflexivity.
  - intros density Hd Hvt.
    rewrite Hrun by (apply stage_failure_build_mesh; right; left; now exists density).
    unfold item_records. rewrite Hd, Hvt.
    exists [info "Processing scene code..."; info "Querying triplane for density...";
            info "Successfully queried triplane for density.";
            info "Scene code processed successfully.";
            info "Calculating v_pos and t_pos_idx..."].
    split; reflexivity.
  - intros density vt Hd Hvt Hc.
    rewrite Hrun
      by (apply stage_failure_build_mesh; right; right; left; now exists density, vt).
    unfold item_records. rewrite Hd, Hvt. destruct vt as [v_pos t_pos_idx].
    cbn [fst] in Hc. rewrite Hc.
    exists [info "Processing scene code..."; info "Querying triplane for density...";
            info "Successfully queried triplane for density.";
            info "Scene code processed successfully.";
            info "Calculating v_pos and t_pos_idx...";
            info "Successfully calculated v_pos and t_pos_idx.";
            info "Querying triplane for color..."].
    split; reflexivity.
  - intros density vt color_ Hd Hvt Hc Hm.
    rewrite Hrun
      by (apply stage_failure_build_mesh; right; right; right;
          now exists density, vt, color_).
    unfold item_records. rewrite Hd, Hvt. destruct vt as [v_pos t_pos_idx].
    cbn [fst snd] in Hc, Hm. rewrite Hc, Hm.
    exists [info "Processing scene code..."; info "Querying triplane for density...";
            info "Successfully queried triplane for density.";
            info "Scene code processed successfully.";
            info "Calculating v_pos and t_pos_idx...";
            info "Successfully calculated v_pos and t_pos_idx.";
            info "Querying triplane for color...";
            info "Successfully queried triplane for color.";
            info "Creating and appending mesh..."].
    split; reflexivity.
Qed.

(** ** The setup as the caller sees it *)

(** X7. Extractions at one resolution share the helper: once a call of
    [extract_mesh] at [resolution] has left a helper of that resolution
    stored, a further call at the same resolution hits the cache, keeps the
    very same helper and returns for a batch what the first call would have
    returned for it. *)
Theorem repeated_extraction_reuses_helper (scs1 scs : list SceneCode) (resolution : Z)
    (threshold1 threshold : Scalar) (w : World C) :
  resolution_is_set (helper_after_setup resolution w) resolution = true ->
  let w1 := snd (extract_mesh scs1 resolution threshold1 w) in
  set_marching_cubes_resolution resolution (started w1) =
    (Ok tt, add_log (started w1)
              [info "Setting marching cubes resolution...";
               info "Marching cubes resolution is already set to the desired value."]) /\
  isosurface_helper (snd (extract_mesh scs resolution threshold w1)) =
    isosurface_helper w1 /\
  fst (extract_mesh scs resolution threshold w1) =
    fst (extract_mesh scs resolution threshold w).
Proof.
  intros Hset w1.
  assert (Hw1 : isosurface_helper w1 = helper_after_setup resolution w).
  { subst w1. apply extract_mesh_world_helper. }
  assert (Hafter : helper_after_setup resolution w1 = helper_after_setup resolution w).
  { rewrite (helper_after_setup_cases resolution w1), Hw1, Hset. reflexivity. }
  split; [| split].
  - apply setup_cache_hit. unfold started. rewrite add_log_helper, Hw1. exact Hset.
  - now rewrite extract_mesh_world_helper, Hafter.
  - now rewrite !extract_mesh_fst, Hafter.
Qed.

(** X8. How a caller can tell that the setup failed.  For a helper class
    whose instances report the resolution they were built with, the helper
    stored after [set_marching_cubes_resolution resolution] reports another
    resolution (or is missing) exactly when the cache did not hit and the
    construction raised; and exactly then the call logs a record at error
    level. *)
Theorem setup_failure_is_observable (resolution : Z) (w : World C) :
  (forall hp, MarchingCubeHelper resolution = Ok hp -> helper_resolution hp = resolution) ->
  (resolution_is_set (helper_after_setup resolution w) resolution = false <->
   resolution_is_set (isosurface_helper w) resolution = false /\
   exists e, MarchingCubeHelper resolution = Raise e) /\
  (errors_logged (log (snd (set_marching_cubes_resolution resolution w))) =
     S (errors_logged (log w)) <->
   resolution_is_set (helper_after_setup resolution w) resolution = false) /\
  (resolution_is_set (helper_after_setup resolution w) resolution = true ->
   errors_logged (log (snd (set_marching_cubes_resolution resolution w))) =
     errors_logged (log w)).
Proof.
  intros Hclass.
  rewrite helper_after_setup_cases, setup_log, errors_logged_app. unfold setup_records.
  destruct (resolution_is_set (isosurface_helper w) resolution) eqn:Hset.
  - rewrite Hset. cbn. repeat split; try lia; try discriminate;
      try (intros [Habs _]; discriminate).
  - destruct (MarchingCubeHelper resolution) as [hp | e] eqn:Hnew.
    + assert (Hhp : resolution_is_set (Some hp) resolution = true).
      { cbn. rewrite (Hclass hp eq_refl). apply Z.eqb_refl. }
      rewrite Hhp. cbn. repeat split; try lia; try discriminate;
        try (intros [_ [e He]]; discriminate).
    + rewrite Hset. cbn. repeat split; try lia; try discriminate;
        try (now exists e).
Qed.

(** ** [render] *)

Lemma render_views_rendered (return_type : string) (sc : SceneCode)
    (rays_o rays_d : list Rays) (views : list nat) (outs : list Output) :
  render_views return_type sc rays_o rays_d views = Ok outs ->
  Forall2 (rendered return_type rays_o rays_d sc) views outs.
Proof.
  revert outs. induction views as [| i views IH]; intros outs; cbn [render_views].
  - intros [= <-]. constructor.
  - destruct (getitem rays_o i) as [o | e] eqn:Ho; cbn [rbind]; [| discriminate].
    destruct (getitem rays_d i) as [d | e] eqn:Hd; cbn [rbind]; [| discriminate].
    destruct (renderer decoder sc o d) as [image | e] eqn:Hi; cbn [rbind]; [| discriminate].
    destruct (process_output return_type image) as [out | e] eqn:Hout;
      cbn [rbind]; [| discriminate].
    destruct (render_views return_type sc rays_o rays_d views) as [outs' | e];
      cbn [rbind]; [| discriminate].
    intros [= <-]. constructor; [| now apply IH].
    now exists o, d, image.
Qed.

Lemma render_scenes_rendered (return_type : string) (rays_o rays_d : list Rays)
    (n_views : Z) (scene_codes : list SceneCode) (images : list (list Output)) :
  render_scenes return_type rays_o rays_d n_views scene_codes = Ok images ->
  Forall2 (fun sc images_ =>
             Forall2 (rendered return_type rays_o rays_d sc) (range n_views) images_)
          scene_codes images.
Proof.
  revert images. induction scene_codes as [| sc scs IH]; intros images; cbn [render_scenes].
  - intros [= <-]. constructor.
  - destruct (render_views return_type sc rays_o rays_d (range n_views))
      as [images_ | e] eqn:Hviews; cbn [rbind]; [| discriminate].
    destruct (render_scenes return_type rays_o rays_d n_views scs)
      as [images' | e]; cbn [rbind]; [| discriminate].
    intros [= <-]. constructor; [| now apply IH].
    now apply render_views_rendered.
Qed.

Lemma render_runs_scenes (scene_codes : list SceneCode) (n_views : Z)
    (elevation_deg camera_distance fovy_deg : Scalar) (height width : Z)
    (return_type : string) (images : list (list Output)) :
  render scene_codes n_views elevation_deg camera_distance fovy_deg height width
         return_type = Ok images ->
  exists rays rays_o rays_d,
    get_spherical_cameras n_views elevation_deg camera_distance fovy_deg height width
      = Ok rays /\
    rays_to (fst rays) = Ok rays_o /\
    rays_to (snd rays) = Ok rays_d /\
    render_scenes return_type rays_o rays_d n_views scene_codes = Ok images.
Proof.
  unfold render.
  destruct (get_spherical_cameras n_views elevation_deg camera_distance fovy_deg height width)
    as [rays | e]; cbn [rbind]; [| discriminate].
  destruct (rays_to (fst rays)) as [rays_o | e] eqn:Ho; cbn [rbind]; [| discriminate].
  destruct (rays_to (snd rays)) as [rays_d | e] eqn:Hd; cbn [rbind]; [| discriminate].
  intros Hscenes. now exists rays, rays_o, rays_d.
Qed.

(** X10. A call of [render] that returns gives one row per scene code, in
    order, and [n_views] outputs per row (none when [n_views] is not
    positive), whatever the return type. *)
Theorem render_shape (scene_codes : list SceneCode) (n_views : Z)
    (elevation_deg camera_distance fovy_deg : Scalar) (height width : Z)
    (return_type : string) (images : list (list Output)) :
  render scene_codes n_views elevation_deg camera_distance fovy_deg height width
         return_type = Ok images ->
  List.length images = List.length scene_codes /\
  Forall (fun images_ => List.length images_ = Z.to_nat n_views) images.
Proof.
  intros Hrender.
  destruct (render_runs_scenes _ _ _ _ _ _ _ _ _ Hrender)
    as (rays & rays_o & rays_d & _ & _ & _ & Hscenes).
  apply render_scenes_rendered in Hscenes.
  split; [symmetry; exact (Forall2_length Hscenes) |].
  clear Hrender.
  induction Hscenes as [| sc images_ scs images' Hrow _ IH]; [constructor |].
  constructor; [| exact IH].
  rewrite <- (Forall2_length Hrow). unfold range. apply length_seq.
Qed.

(** X11. A call of [render] that returns has no partial result: the output
    at row [k], position [i] is the conversion of the image the renderer
    gave for scene code [k] with the rays of view [i], for every scene code
    and every view. *)
Theorem render_outputs_are_rendered (scene_codes : list SceneCode) (n_views : Z)
    (elevation_deg camera_distance fovy_deg : Scalar) (height width : Z)
    (return_type : string) (images : list (list Output)) :
  render scene_codes n_views elevation_deg camera_distance fovy_deg height width
         return_type = Ok images ->
  exists rays rays_o rays_d,
    get_spherical_cameras n_views elevation_deg camera_distance fovy_deg height width
      = Ok rays /\
    rays_to (fst rays) = Ok rays_o /\
    rays_to (snd rays) = Ok rays_d /\
    Forall2 (fun sc images_ =>
               Forall2 (rendered return_type rays_o rays_d sc) (range n_views) images_)
            scene_codes images.
Proof.
  intros Hrender.
  destruct (render_runs_scenes _ _ _ _ _ _ _ _ _ Hrender)
    as (rays & rays_o & rays_d & Hrays & Ho & Hd & Hscenes).
  exists rays, rays_o, rays_d. repeat split; try assumption.
  now apply render_scenes_rendered.
Qed.


(** X13. [render] isolates nothing: when the views of one scene code raise
    after the scene codes before it were rendered, the whole call raises
    that exception and the rows already rendered are lost. *)
Theorem render_propagates_failure (done : list SceneCode) (sc : SceneCode)
    (rest : list SceneCode) (n_views : Z)
    (elevation_deg camera_distance fovy_deg : Scalar) (height width : Z)
    (return_type : string) (rays : list Rays * list Rays) (rays_o rays_d : list Rays)
    (e : exn) :
  get_spherical_cameras n_views elevation_deg camera_distance fovy_deg height width
    = Ok rays ->
  rays_to (fst rays) = Ok rays_o ->
  rays_to (snd rays) = Ok rays_d ->
  Forall (fun sc' => exists images_,
            render_views return_type sc' rays_o rays_d (range n_views) = Ok images_) done ->
  render_views return_type sc rays_o rays_d (range n_views) = Raise e ->
  render (done ++ sc :: rest) n_views elevation_deg camera_distance fovy_deg height width
         return_type = Raise e.
Proof.
  intros Hrays Ho Hd Hdone Hsc. unfold render. rewrite Hrays. cbn [rbind].
  rewrite Ho. cbn [rbind]. rewrite Hd. cbn [rbind].
  induction Hdone as [| sc' done' [images_ Hok] _ IH]; cbn [app render_scenes].
  - now rewrite Hsc.
  - rewrite Hok. cbn [rbind]. now rewrite IH.
Qed.


(** ** The whole run of [extract_mesh] *)

(** X15. The complete outcome of [extract_mesh]: it returns the mesh of the
    first scene code that passes all stages (or [None]), leaves the helper
    of the setup call stored, and adds to the log, in this order, the start
    record, the two records of the setup call, and for each scene code up
    to and including the first that passes, the records of its stages;
    nothing that was logged before is dropped or changed. *)
Theorem extract_mesh_run (scs : list SceneCode) (resolution : Z) (threshold : Scalar)
    (w : World C) :
  extract_mesh scs resolution threshold w =
    (Ok (option_map (fun m => [m])
           (first_mesh (helper_after_setup resolution w) threshold scs)),
     mkWorld (helper_after_setup resolution w)
       (log w ++ info "Starting mesh extraction..." ::
          setup_records (isosurface_helper w) resolution ++
          flat_map (item_records (helper_after_setup resolution w) threshold)
                   (attempted (helper_after_setup resolution w) threshold scs))).
Proof.
  pose proof (extract_mesh_fst scs resolution threshold w) as Hfst.
  pose proof (extract_mesh_world_helper scs resolution threshold w) as Hhelper.
  pose proof (extract_mesh_log scs resolution threshold w) as Hlog.
  destruct (extract_mesh scs resolution threshold w) as [res [h l]].
  cbn [fst snd isosurface_helper log] in *. now subst.
Qed.

End MoreFacts.

(** * Further runs on the benches *)

Section MoreRuns.

Import Bench.

Local Open Scope string_scope.
Local Open Scope list_scope.
Local Open Scope Z_scope.

Lemma all_failed_batch_witness :
  Forall (fun sc => exists e,
            build_mesh (C := flaky) (helper_after_setup 2 flaky2) 25 sc = Raise e)
         [-1; 100; 3; 25] /\
  fst (extract_mesh (C := flaky) [-1; 100; 3; 25] 2 25 flaky2) = Ok None /\
  scene_codes_processed (log (snd (extract_mesh (C := flaky) [-1; 100; 3; 25] 2 25 flaky2)))
    = 4%nat /\
  errors_logged (log (snd (extract_mesh (C := flaky) [-1; 100; 3; 25] 2 25 flaky2)))
    = 4%nat.
Proof.
  assert (H : Forall (fun sc => exists e,
                        build_mesh (C := flaky) (helper_after_setup 2 flaky2) 25 sc = Raise e)
                     [-1; 100; 3; 25]).
  { repeat (constructor; [eexists; reflexivity |]). constructor. }
  exact (conj H (all_failed_batch (C := flaky) [-1; 100; 3; 25] 2 25 flaky2 H)).
Defined.

Lemma failed_first_build_fails_every_scene_code_witness :
  isosurface_helper fresh = None /\
  MarchingCubeHelper 1000 = Raise MemoryError /\
  fst (extract_mesh [3; 4] 1000 25 fresh) = Ok None /\
  isosurface_helper (snd (extract_mesh [3; 4] 1000 25 fresh)) = None /\
  scene_codes_processed (log (snd (extract_mesh [3; 4] 1000 25 fresh))) = 2%nat /\
  logged_with "Failed to query triplane for density: %s"
    (log (snd (extract_mesh [3; 4] 1000 25 fresh))) = 2%nat.
Proof.
  assert (H1 : isosurface_helper fresh = None) by reflexivity.
  assert (H2 : MarchingCubeHelper 1000 = Raise MemoryError) by reflexivity.
  exact (conj H1 (conj H2
           (failed_first_build_fails_every_scene_code (C := collaborators)
              [3; 4] 1000 25 fresh MemoryError H1 H2))).
Defined.

Lemma failed_rebuild_extracts_with_stale_helper_witness :
  isosurface_helper cached2 = Some 2 /\
  helper_resolution 2 <> 1000 /\
  MarchingCubeHelper 1000 = Raise MemoryError /\
  fst (extract_mesh [-1; 4; 3] 1000 25 cached2) = Ok (Some [mesh4]) /\
  isosurface_helper (snd (extract_mesh [-1; 4; 3] 1000 25 cached2)) = Some 2 /\
  In (error "Failed to set marching cubes resolution: %s" MemoryError)
     (log (snd (extract_mesh [-1; 4; 3] 1000 25 cached2))).
Proof.
  assert (H1 : isosurface_helper cached2 = Some 2) by reflexivity.
  assert (H2 : helper_resolution 2 <> 1000) by discriminate.
  assert (H3 : MarchingCubeHelper 1000 = Raise MemoryError) by reflexivity.
  exact (conj H1 (conj H2 (conj H3
           (failed_rebuild_extracts_with_stale_helper (C := collaborators)
              [-1; 4; 3] 1000 25 cached2 2 MemoryError H1 H2 H3)))).
Defined.

Lemma repeated_extraction_reuses_helper_witness :
  resolution_is_set (helper_after_setup 2 fresh) 2 = true /\
  (let w1 := snd (extract_mesh [-1] 2 30 fresh) in
   set_marching_cubes_resolution 2 (started w1) =
     (Ok tt, add_log (started w1)
               [info "Setting marching cubes resolution...";
                info "Marching cubes resolution is already set to the desired value."]) /\
   isosurface_helper (snd (extract_mesh [3; 4] 2 25 w1)) = isosurface_helper w1 /\
   fst (extract_mesh [3; 4] 2 25 w1) = fst (extract_mesh [3; 4] 2 25 fresh)).
Proof.
  assert (H : resolution_is_set (helper_after_setup 2 fresh) 2 = true) by reflexivity.
  exact (conj H (repeated_extraction_reuses_helper (C := collaborators)
                   [-1] [3; 4] 2 30 25 fresh H)).
Defined.

Lemma setup_failure_is_observable_witness :
  ((forall hp, MarchingCubeHelper 1000 = Ok hp -> helper_resolution hp = 1000) /\
   (resolution_is_set (helper_after_setup 1000 cached2) 1000 = false <->
    resolution_is_set (isosurface_helper cached2) 1000 = false /\
    exists e, MarchingCubeHelper 1000 = Raise e) /\
   (errors_logged (log (snd (set_marching_cubes_resolution 1000 cached2))) =
      S (errors_logged (log cached2)) <->
    resolution_is_set (helper_after_setup 1000 cached2) 1000 = false) /\
   (resolution_is_set (helper_after_setup 1000 cached2) 1000 = true ->
    errors_logged (log (snd (set_marching_cubes_resolution 1000 cached2))) =
      errors_logged (log cached2))) /\
  ((forall hp, MarchingCubeHelper 3 = Ok hp -> helper_resolution hp = 3) /\
   resolution_is_set (helper_after_setup 3 cached2) 3 = true /\
   errors_logged (log (snd (set_marching_cubes_resolution 3 cached2))) =
     errors_logged (log cached2)).
Proof.
  assert (H : forall hp, MarchingCubeHelper 1000 = Ok hp -> helper_resolution hp = 1000)
    by (intros hp Hhp; discriminate Hhp).
  assert (H' : forall hp, MarchingCubeHelper 3 = Ok hp -> helper_resolution hp = 3).
  { intros hp Hhp. injection Hhp as <-. reflexivity. }
  assert (Hset : resolution_is_set (helper_after_setup 3 cached2) 3 = true) by reflexivity.
  destruct (setup_failure_is_observable (C := collaborators) 3 cached2 H') as (_ & _ & Hok).
  exact (conj (conj H (setup_failure_is_observable (C := collaborators) 1000 cached2 H))
              (conj H' (conj Hset (Hok Hset)))).
Defined.

Lemma failed_stage_is_logged_witness :
  (query_density (C := flaky) (isosurface_helper flaky2) (-1) = Raise query_failed /\
   exists l,
     log (snd (extract_loop (C := flaky) 25 [-1] [] flaky2)) =
       log flaky2 ++ l ++ [error "Failed to query triplane for density: %s" query_failed] /\
     errors_logged l = 0%nat) /\
  (query_density (C := flaky) (isosurface_helper flaky2) 100 = Ok [99; 101] /\
   isosurface (C := flaky) (isosurface_helper flaky2) [99; 101] 25 =
     Raise (ValueError "no surface") /\
   exists l,
     log (snd (extract_loop (C := flaky) 25 [100] [] flaky2)) =
       log flaky2 ++ l ++
       [error "Failed to calculate v_pos and t_pos_idx: %s" (ValueError "no surface")] /\
     errors_logged l = 0%nat) /\
  (query_density (C := flaky) (isosurface_helper flaky2) 3 = Ok [2; 4] /\
   isosurface (C := flaky) (isosurface_helper flaky2) [2; 4] 25 = Ok ([45; 41], [0; 1]) /\
   query_color (C := flaky) [45; 41] 3 = Raise (ValueError "point outside the triplane") /\
   exists l,
     log (snd (extract_loop (C := flaky) 25 [3] [] flaky2)) =
       log flaky2 ++ l ++
       [error "Failed to query triplane for color: %s"
              (ValueError "point outside the triplane")] /\
     errors_logged l = 0%nat) /\
  (query_density (C := flaky) (isosurface_helper flaky2) 25 = Ok [24; 26] /\
   isosurface (C := flaky) (isosurface_helper flaky2) [24; 26] 25 = Ok ([1], [0; 1]) /\
   query_color (C := flaky) [1] 25 = Ok [25] /\
   create_mesh (C := flaky) [1] [0; 1] [25] = Raise (ValueError "face index out of range") /\
   exists l,
     log (snd (extract_loop (C := flaky) 25 [25] [] flaky2)) =
       log flaky2 ++ l ++
       [error "Failed to create and append mesh: %s"
              (ValueError "face index out of range")] /\
     errors_logged l = 0%nat).
Proof.
  assert (A1 : query_density (C := flaky) (isosurface_helper flaky2) (-1) = Raise query_failed)
    by reflexivity.
  assert (B1 : query_density (C := flaky) (isosurface_helper flaky2) 100 = Ok [99; 101])
    by reflexivity.
  assert (B2 : isosurface (C := flaky) (isosurface_helper flaky2) [99; 101] 25 =
               Raise (ValueError "no surface")) by reflexivity.
  assert (C1 : query_density (C := flaky) (isosurface_helper flaky2) 3 = Ok [2; 4])
    by reflexivity.
  assert (C2 : isosurface (C := flaky) (isosurface_helper flaky2) [2; 4] 25 =
               Ok ([45; 41], [0; 1])) by reflexivity.
  assert (C3 : query_color (C := flaky) [45; 41] 3 =
               Raise (ValueError "point outside the triplane")) by reflexivity.
  assert (D1 : query_density (C := flaky) (isosurface_helper flaky2) 25 = Ok [24; 26])
    by reflexivity.
  assert (D2 : isosurface (C := flaky) (isosurface_helper flaky2) [24; 26] 25 =
               Ok ([1], [0; 1])) by reflexivity.
  assert (D3 : query_color (C := flaky) [1] 25 = Ok [25]) by reflexivity.
  assert (D4 : create_mesh (C := flaky) [1] [0; 1] [25] =
               Raise (ValueError "face index out of range")) by reflexivity.
  refine (conj (conj A1 _) (conj (conj B1 (conj B2 _))
            (conj (conj C1 (conj C2 (conj C3 _))) (conj D1 (conj D2 (conj D3 (conj D4 _))))))).
  - exact (proj1 (failed_stage_is_logged (C := flaky) 25 (-1) [] flaky2 query_failed) A1).
  - exact (proj1 (proj2 (failed_stage_is_logged (C := flaky) 25 100 [] flaky2
                           (ValueError "no surface"))) _ B1 B2).
  - exact (proj1 (proj2 (proj2 (failed_stage_is_logged (C := flaky) 25 3 [] flaky2
                                  (ValueError "point outside the triplane"))))
             _ ([45; 41], [0; 1]) C1 C2 C3).
  - exact (proj2 (proj2 (proj2 (failed_stage_is_logged (C := flaky) 25 25 [] flaky2
                                  (ValueError "face index out of range"))))
             _ ([1], [0; 1]) _ D1 D2 D3 D4).
Defined.

Lemma render_shape_witness :
  render [1; 2] 2 0 0 0 4 4 "np" =
    Ok [[OutNp [f32_zero; f32_half; f32_one]; OutNp [f32_zero; f32_half; f32_one]];
        [OutNp [f32_zero; f32_half; f32_one]; OutNp [f32_zero; f32_half; f32_one]]] /\
  List.length
    [[OutNp [f32_zero; f32_half; f32_one]; OutNp [f32_zero; f32_half; f32_one]];
     [OutNp [f32_zero; f32_half; f32_one]; OutNp [f32_zero; f32_half; f32_one]]] = 2%nat /\
  Forall (fun images_ : list Output => List.length images_ = 2%nat)
    [[OutNp [f32_zero; f32_half; f32_one]; OutNp [f32_zero; f32_half; f32_one]];
     [OutNp [f32_zero; f32_half; f32_one]; OutNp [f32_zero; f32_half; f32_one]]].
Proof.
  assert (H : render [1; 2] 2 0 0 0 4 4 "np" =
    Ok [[OutNp [f32_zero; f32_half; f32_one]; OutNp [f32_zero; f32_half; f32_one]];
        [OutNp [f32_zero; f32_half; f32_one]; OutNp [f32_zero; f32_half; f32_one]]])
    by reflexivity.
  exact (conj H (render_shape (C := collaborators) [1; 2] 2 0 0 0 4 4 "np" _ H)).
Defined.

Lemma render_outputs_are_rendered_witness :
  render [7] 1 0 0 0 4 4 "pil" = Ok [[OutPil [0; 127; 255]]] /\
  exists rays rays_o rays_d,
    get_spherical_cameras 1 0 0 0 4 4 = Ok rays /\
    rays_to (fst rays) = Ok rays_o /\
    rays_to (snd rays) = Ok rays_d /\
    Forall2 (fun sc images_ => Forall2 (rendered "pil" rays_o rays_d sc) (range 1) images_)
            [7] [[OutPil [0; 127; 255]]].
Proof.
  assert (H : render [7] 1 0 0 0 4 4 "pil" = Ok [[OutPil [0; 127; 255]]]) by reflexivity.
  exact (conj H (render_outputs_are_rendered (C := collaborators) [7] 1 0 0 0 4 4 "pil" _ H)).
Defined.


Lemma render_propagates_failure_witness :
  get_spherical_cameras (Collaborators := flaky) 2 0 0 0 4 4 = Ok ([0; 1], [0; 1]) /\
  rays_to (Collaborators := flaky) (fst ([0; 1], [0; 1])) = Ok [0; 1] /\
  rays_to (Collaborators := flaky) (snd ([0; 1], [0; 1])) = Ok [0; 1] /\
  Forall (fun sc' => exists images_,
            render_views (C := flaky) "np" sc' [0; 1] [0; 1] (range 2) = Ok images_) [1] /\
  render_views (C := flaky) "np" (-2) [0; 1] [0; 1] (range 2) =
    Raise (RuntimeError "render failed") /\
  render (C := flaky) ([1] ++ -2 :: [3]) 2 0 0 0 4 4 "np" =
    Raise (RuntimeError "render failed").
Proof.
  assert (H1 : get_spherical_cameras (Collaborators := flaky) 2 0 0 0 4 4 = Ok ([0; 1], [0; 1]))
    by reflexivity.
  assert (H2 : rays_to (Collaborators := flaky) (fst ([0; 1], [0; 1])) = Ok [0; 1]) by reflexivity.
  assert (H3 : rays_to (Collaborators := flaky) (snd ([0; 1], [0; 1])) = Ok [0; 1]) by reflexivity.
  assert (H4 : Forall (fun sc' => exists images_,
                         render_views (C := flaky) "np" sc' [0; 1] [0; 1] (range 2)
                           = Ok images_) [1]).
  { constructor; [eexists; reflexivity | constructor]. }
  assert (H5 : render_views (C := flaky) "np" (-2) [0; 1] [0; 1] (range 2) =
               Raise (RuntimeError "render failed")) by reflexivity.
  exact (conj H1 (conj H2 (conj H3 (conj H4 (conj H5
           (render_propagates_failure (C := flaky) [1] (-2) [3] 2 0 0 0 4 4 "np"
              ([0; 1], [0; 1]) [0; 1] [0; 1] (RuntimeError "render failed")
              H1 H2 H3 H4 H5)))))).
Defined.

End MoreRuns.
